(** * Portfolio accounting: a shallow embedding of the ledger and its analytics

    The development follows [src/portfolio.py] (Position, PortfolioConfig,
    PortfolioManager) and [web/portfolio_api.py] (PortfolioAPI).

    Conventions of the embedding.
    - Python [float] values (prices, cash, rates) are idealised as exact
      rationals [Q]; arithmetic facts are stated up to [Qeq] ([==]), data
      that is only copied is compared with Leibniz equality.  Rounding of
      binary floating point is therefore outside this part of the model;
      [Binary64] repeats the cost-price arithmetic of [add_position] on
      IEEE 754 binary64 values, where the order of the purchases matters.
    - Python [int] share counts are [Z].
    - A [dict] keyed by strings is a [gmap string _]; the iteration order of
      a dict is not part of the model (sums are exact, so they do not depend
      on it).
    - [datetime.now()] is an explicit argument [now]; the outcome of the file
      system calls of [save_config] is an explicit argument of type
      [disk_outcome].
    - [logger] calls are collected in a list of [log_event].
    - [record_trade] and [take_daily_snapshot], which [trade.py] calls on the
      manager, have no body in the sources at hand; they are modelled from
      the specification in [TradeJournal] and [SnapshotRecorder]. *)

From Stdlib Require Import Ascii String QArith Qfield Qminmax Lia Lqa OrdersEx.
From Stdlib Require Import PrimFloat Uint63.
From stdpp Require Import gmap strings list fin_maps sorting.

Local Open Scope string_scope.

(** ** Arithmetic helpers *)

(** [x < y] on rationals, as a boolean. *)
Definition Qlt_bool (x y : Q) : bool := negb (Qle_bool y x).

(** Python's [max(a, b)]: the first argument unless the second is larger. *)
Definition py_max (a b : Q) : Q := if Qlt_bool a b then b else a.

(** Python's [int * float]. *)
Definition Zmulf (n : Z) (x : Q) : Q := (inject_Z n * x)%Q.

(** Truthiness of a Python string. *)
Definition truthy (s : string) : bool :=
  match s with EmptyString => false | _ => true end.

(** [s.split()[0]] for a timestamp ['%Y-%m-%d %H:%M:%S']: the characters
    before the first blank. *)
Fixpoint split_first (s : string) : string :=
  match s with
  | EmptyString => EmptyString
  | String c s' => if Ascii.eqb c " "%char then EmptyString
                   else String c (split_first s')
  end.

(** ** Position *)

Module Position.

Record t := mk {
  code : string;
  name : string;
  shares : Z;
  cost_price : Q;
  current_price : Q;
  buy_date : string;
  last_update : string;
  notes : string
}.

Definition cost_amount (p : t) : Q := Zmulf (shares p) (cost_price p).
Definition market_value (p : t) : Q := Zmulf (shares p) (current_price p).
Definition profit_loss (p : t) : Q := (market_value p - cost_amount p)%Q.
Definition profit_loss_pct (p : t) : Q :=
  if Qeq_bool (cost_amount p) 0 then 0%Q
  else (profit_loss p / cost_amount p * 100)%Q.

(** The persisted form of a position: a JSON object in which any key may
    be absent. *)
Record doc := mk_doc {
  d_code : option string;
  d_name : option string;
  d_shares : option Z;
  d_cost_price : option Q;
  d_current_price : option Q;
  d_buy_date : option string;
  d_last_update : option string;
  d_notes : option string
}.

Definition to_dict (p : t) : doc :=
  {| d_code := Some (code p);
     d_name := Some (name p);
     d_shares := Some (shares p);
     d_cost_price := Some (cost_price p);
     d_current_price := Some (current_price p);
     d_buy_date := Some (buy_date p);
     d_last_update := Some (last_update p);
     d_notes := Some (notes p) |}.

(** [data.get(key, dflt)] is [default dflt (key data)]. *)
Definition from_dict (data : doc) : t :=
  {| code := default "" (d_code data);
     name := default "" (d_name data);
     shares := default 0%Z (d_shares data);
     cost_price := default 0%Q (d_cost_price data);
     current_price := default 0%Q (d_current_price data);
     buy_date := default "" (d_buy_date data);
     last_update := default "" (d_last_update data);
     notes := default "" (d_notes data) |}.

End Position.

(** Python's [sum(...)] over the values of a dict, starting from [0]. *)
Definition sum_values {A} (f : A → Q) (m : gmap string A) : Q :=
  foldl (λ acc kv, (acc + f kv.2)%Q) 0%Q (map_to_list m).

(** ** PortfolioConfig *)

Module PortfolioConfig.

Record t := mk {
  initial_capital : Q;
  available_cash : Q;
  max_single_position_pct : Q;
  stop_loss_pct : Q;
  take_profit_pct : Q;
  max_total_position_pct : Q;
  commission_rate : Q;
  stamp_duty_rate : Q;
  min_commission : Q;
  positions : gmap string Position.t;
  created_at : string;
  updated_at : string
}.

(** [__post_init__]: stamp the creation time if it is empty, and always
    refresh the update time. *)
Definition post_init (now : string) (c : t) : t :=
  {| initial_capital := initial_capital c;
     available_cash := available_cash c;
     max_single_position_pct := max_single_position_pct c;
     stop_loss_pct := stop_loss_pct c;
     take_profit_pct := take_profit_pct c;
     max_total_position_pct := max_total_position_pct c;
     commission_rate := commission_rate c;
     stamp_duty_rate := stamp_duty_rate c;
     min_commission := min_commission c;
     positions := positions c;
     created_at := if truthy (created_at c) then created_at c else now;
     updated_at := now |}.

Definition total_cost (c : t) : Q :=
  sum_values Position.cost_amount (positions c).
Definition total_market_value (c : t) : Q :=
  sum_values Position.market_value (positions c).
Definition total_profit_loss (c : t) : Q :=
  (total_market_value c - total_cost c)%Q.
Definition total_profit_loss_pct (c : t) : Q :=
  if Qeq_bool (total_cost c) 0 then 0%Q
  else (total_profit_loss c / total_cost c * 100)%Q.
Definition total_assets (c : t) : Q :=
  (available_cash c + total_market_value c)%Q.
Definition total_return_pct (c : t) : Q :=
  if Qeq_bool (initial_capital c) 0 then 0%Q
  else ((total_assets c - initial_capital c) / initial_capital c * 100)%Q.
Definition position_ratio (c : t) : Q :=
  if Qeq_bool (total_assets c) 0 then 0%Q
  else (total_market_value c / total_assets c * 100)%Q.

(** The persisted account document. *)
Record doc := mk_doc {
  d_initial_capital : option Q;
  d_available_cash : option Q;
  d_max_single_position_pct : option Q;
  d_stop_loss_pct : option Q;
  d_take_profit_pct : option Q;
  d_max_total_position_pct : option Q;
  d_commission_rate : option Q;
  d_stamp_duty_rate : option Q;
  d_min_commission : option Q;
  d_positions : option (gmap string Position.doc);
  d_created_at : option string;
  d_updated_at : option string
}.

Definition to_dict (c : t) : doc :=
  {| d_initial_capital := Some (initial_capital c);
     d_available_cash := Some (available_cash c);
     d_max_single_position_pct := Some (max_single_position_pct c);
     d_stop_loss_pct := Some (stop_loss_pct c);
     d_take_profit_pct := Some (take_profit_pct c);
     d_max_total_position_pct := Some (max_total_position_pct c);
     d_commission_rate := Some (commission_rate c);
     d_stamp_duty_rate := Some (stamp_duty_rate c);
     d_min_commission := Some (min_commission c);
     d_positions := Some (Position.to_dict <$> positions c);
     d_created_at := Some (created_at c);
     d_updated_at := Some (updated_at c) |}.

(** [from_dict] builds the dataclass through its constructor, so
    [__post_init__] runs on the result. *)
Definition from_dict (now : string) (data : doc) : t :=
  post_init now
    {| initial_capital := default 100000%Q (d_initial_capital data);
       available_cash := default 100000%Q (d_available_cash data);
       max_single_position_pct := default 30%Q (d_max_single_position_pct data);
       stop_loss_pct := default 8%Q (d_stop_loss_pct data);
       take_profit_pct := default 20%Q (d_take_profit_pct data);
       max_total_position_pct := default 80%Q (d_max_total_position_pct data);
       commission_rate := default (3 # 10000)%Q (d_commission_rate data);
       stamp_duty_rate := default (1 # 1000)%Q (d_stamp_duty_rate data);
       min_commission := default 5%Q (d_min_commission data);
       positions := Position.from_dict <$> default ∅ (d_positions data);
       created_at := default "" (d_created_at data);
       updated_at := default "" (d_updated_at data) |}.

(** [PortfolioConfig()]: every field at its declared default. *)
Definition fresh (now : string) : t :=
  post_init now
    {| initial_capital := 100000%Q;
       available_cash := 100000%Q;
       max_single_position_pct := 30%Q;
       stop_loss_pct := 8%Q;
       take_profit_pct := 20%Q;
       max_total_position_pct := 80%Q;
       commission_rate := (3 # 10000)%Q;
       stamp_duty_rate := (1 # 1000)%Q;
       min_commission := 5%Q;
       positions := ∅;
       created_at := "";
       updated_at := "" |}.

Definition set_positions (ps : gmap string Position.t) (c : t) : t :=
  {| initial_capital := initial_capital c;
     available_cash := available_cash c;
     max_single_position_pct := max_single_position_pct c;
     stop_loss_pct := stop_loss_pct c;
     take_profit_pct := take_profit_pct c;
     max_total_position_pct := max_total_position_pct c;
     commission_rate := commission_rate c;
     stamp_duty_rate := stamp_duty_rate c;
     min_commission := min_commission c;
     positions := ps;
     created_at := created_at c;
     updated_at := updated_at c |}.

Definition set_available_cash (cash : Q) (c : t) : t :=
  {| initial_capital := initial_capital c;
     available_cash := cash;
     max_single_position_pct := max_single_position_pct c;
     stop_loss_pct := stop_loss_pct c;
     take_profit_pct := take_profit_pct c;
     max_total_position_pct := max_total_position_pct c;
     commission_rate := commission_rate c;
     stamp_duty_rate := stamp_duty_rate c;
     min_commission := min_commission c;
     positions := positions c;
     created_at := created_at c;
     updated_at := updated_at c |}.

Definition set_updated_at (now : string) (c : t) : t :=
  {| initial_capital := initial_capital c;
     available_cash := available_cash c;
     max_single_position_pct := max_single_position_pct c;
     stop_loss_pct := stop_loss_pct c;
     take_profit_pct := take_profit_pct c;
     max_total_position_pct := max_total_position_pct c;
     commission_rate := commission_rate c;
     stamp_duty_rate := stamp_duty_rate c;
     min_commission := min_commission c;
     positions := positions c;
     created_at := created_at c;
     updated_at := now |}.

End PortfolioConfig.

(** ** PortfolioManager *)

(** What the file system does when [save_config] runs: creating the parent
    directory may fail, writing the file may fail, or both succeed. *)
Inductive disk_outcome := DiskOk | MkdirFails | WriteFails.

(** The messages the manager hands to its logger. *)
Inductive log_event :=
| PositionUpdated (code name : string) (total_shares : Z) (cost_price : Q)
| PositionCreated (code name : string) (shares : Z) (cost_price : Q)
| PositionMissing (code : string)
| SharesExceedHolding (shares held : Z)
| PositionClosed (code : string) (net_profit : Q)
| PositionReduced (code : string) (shares : Z) (net_profit : Q)
| ConfigSaved
| ConfigSaveFailed.

Inductive log_level := Info | Warning | Error.

Definition level_of (e : log_event) : log_level :=
  match e with
  | PositionMissing _ | SharesExceedHolding _ _ => Warning
  | ConfigSaveFailed => Error
  | _ => Info
  end.

Module PortfolioManager.

(** The result of a call: the returned flag, what was logged, and the
    portfolio the manager holds afterwards. *)
Record outcome := mk_outcome {
  ret : bool;
  logged : list log_event;
  portfolio : PortfolioConfig.t
}.

Definition save_config (now : string) (disk : disk_outcome)
    (pf : PortfolioConfig.t) : outcome :=
  match disk with
  | MkdirFails => mk_outcome false [ConfigSaveFailed] pf
  | WriteFails =>
      mk_outcome false [ConfigSaveFailed] (PortfolioConfig.set_updated_at now pf)
  | DiskOk =>
      mk_outcome true [ConfigSaved] (PortfolioConfig.set_updated_at now pf)
  end.

(** Run [save_config] after a step that logged [evs]. *)
Definition then_save (now : string) (disk : disk_outcome)
    (evs : list log_event) (pf : PortfolioConfig.t) : outcome :=
  let o := save_config now disk pf in
  mk_outcome (ret o) (evs ++ logged o) (portfolio o).

Definition add_position (code name : string) (shares : Z) (cost_price : Q)
    (notes : string) (now : string) (disk : disk_outcome)
    (pf : PortfolioConfig.t) : outcome :=
  match PortfolioConfig.positions pf !! code with
  | Some pos =>
      let total_cost := (Position.cost_amount pos + Zmulf shares cost_price)%Q in
      let total_shares := (Position.shares pos + shares)%Z in
      let cost_price' :=
        if (0 <? total_shares)%Z then (total_cost / inject_Z total_shares)%Q
        else Position.cost_price pos in
      let pos' :=
        {| Position.code := Position.code pos;
           Position.name := Position.name pos;
           Position.shares := total_shares;
           Position.cost_price := cost_price';
           Position.current_price := Position.current_price pos;
           Position.buy_date := Position.buy_date pos;
           Position.last_update := now;
           Position.notes := if truthy notes then notes else Position.notes pos |} in
      then_save now disk
        [PositionUpdated code name total_shares cost_price']
        (PortfolioConfig.set_positions
           (<[code := pos']> (PortfolioConfig.positions pf)) pf)
  | None =>
      let pos' :=
        {| Position.code := code;
           Position.name := name;
           Position.shares := shares;
           Position.cost_price := cost_price;
           Position.current_price := 0%Q;
           Position.buy_date := split_first now;
           Position.last_update := now;
           Position.notes := notes |} in
      then_save now disk
        [PositionCreated code name shares cost_price]
        (PortfolioConfig.set_positions
           (<[code := pos']> (PortfolioConfig.positions pf)) pf)
  end.

Definition reduce_position (code : string) (shares : Z) (sell_price : Q)
    (now : string) (disk : disk_outcome) (pf : PortfolioConfig.t) : outcome :=
  match PortfolioConfig.positions pf !! code with
  | None => mk_outcome false [PositionMissing code] pf
  | Some pos =>
      if (Position.shares pos <? shares)%Z then
        mk_outcome false [SharesExceedHolding shares (Position.shares pos)] pf
      else
        let sell_amount := Zmulf shares sell_price in
        let cost := Zmulf shares (Position.cost_price pos) in
        let profit := (sell_amount - cost)%Q in
        let commission :=
          py_max (sell_amount * PortfolioConfig.commission_rate pf)%Q
                 (PortfolioConfig.min_commission pf) in
        let stamp_duty := (sell_amount * PortfolioConfig.stamp_duty_rate pf)%Q in
        let net_profit := (profit - commission - stamp_duty)%Q in
        let pos' :=
          {| Position.code := Position.code pos;
             Position.name := Position.name pos;
             Position.shares := (Position.shares pos - shares)%Z;
             Position.cost_price := Position.cost_price pos;
             Position.current_price := Position.current_price pos;
             Position.buy_date := Position.buy_date pos;
             Position.last_update := now;
             Position.notes := Position.notes pos |} in
        let cash' :=
          (PortfolioConfig.available_cash pf
           + (sell_amount - commission - stamp_duty))%Q in
        let pf1 :=
          PortfolioConfig.set_available_cash cash'
            (PortfolioConfig.set_positions
               (<[code := pos']> (PortfolioConfig.positions pf)) pf) in
        if (Position.shares pos' =? 0)%Z then
          then_save now disk [PositionClosed code net_profit]
            (PortfolioConfig.set_positions
               (delete code (PortfolioConfig.positions pf1)) pf1)
        else
          then_save now disk [PositionReduced code shares net_profit] pf1
  end.

(** One iteration of the loop of [update_prices]. *)
Definition update_price (now : string) (ps : gmap string Position.t)
    (quote : string * Q) : gmap string Position.t :=
  match ps !! quote.1 with
  | Some pos =>
      <[quote.1 :=
          {| Position.code := Position.code pos;
             Position.name := Position.name pos;
             Position.shares := Position.shares pos;
             Position.cost_price := Position.cost_price pos;
             Position.current_price := quote.2;
             Position.buy_date := Position.buy_date pos;
             Position.last_update := now;
             Position.notes := Position.notes pos |}]> ps
  | None => ps
  end.

(** [prices.items()] is the list of quotes, in the order of the dict.  The
    source discards the flag of [save_config] and returns [None]; the flag
    is kept in the outcome. *)
Definition update_prices (prices : list (string * Q)) (now : string)
    (disk : disk_outcome) (pf : PortfolioConfig.t) : outcome :=
  then_save now disk []
    (PortfolioConfig.set_positions
       (foldl (update_price now) (PortfolioConfig.positions pf) prices) pf).

Definition get_position (code : string) (pf : PortfolioConfig.t)
    : option Position.t :=
  PortfolioConfig.positions pf !! code.

Definition has_position (code : string) (pf : PortfolioConfig.t) : bool :=
  bool_decide (is_Some (PortfolioConfig.positions pf !! code)).

(** *** check_risk_alerts *)

Inductive alert_type :=
| StopLoss | StopLossWarning | TakeProfit | TakeProfitWarning | PositionLimit.

Inductive alert_level := Danger | Caution | Success | Notice.

(** One entry of the returned list.  The [message] of the source is a
    formatted text; the model keeps the figure it quotes ([a_quoted]). *)
Record alert := mk_alert {
  a_type : alert_type;
  a_level : alert_level;
  a_code : string;
  a_name : string;
  a_quoted : Q;
  a_action : string
}.

(** The body of the loop over [p.positions.values()]: the stop-loss pair
    of tests, then the take-profit pair. *)
Definition position_alerts (p : PortfolioConfig.t) (pos : Position.t)
    : list alert :=
  let pct := Position.profit_loss_pct pos in
  (if Qle_bool pct (- PortfolioConfig.stop_loss_pct p) then
     [ mk_alert StopLoss Danger (Position.code pos) (Position.name pos) pct
         "建议止损卖出" ]
   else if Qle_bool pct (- (PortfolioConfig.stop_loss_pct p * (7 # 10))) then
     [ mk_alert StopLossWarning Caution (Position.code pos) (Position.name pos)
         pct "密切关注，准备止损" ]
   else [])
  ++
  (if Qle_bool (PortfolioConfig.take_profit_pct p) pct then
     [ mk_alert TakeProfit Success (Position.code pos) (Position.name pos) pct
         "建议分批止盈" ]
   else if Qle_bool (PortfolioConfig.take_profit_pct p * (8 # 10)) pct then
     [ mk_alert TakeProfitWarning Notice (Position.code pos) (Position.name pos)
         pct "考虑部分止盈" ]
   else []).

Definition check_risk_alerts (p : PortfolioConfig.t) : list alert :=
  ((map_to_list (PortfolioConfig.positions p)).*2 ≫= position_alerts p)
  ++
  (if Qle_bool (PortfolioConfig.max_total_position_pct p)
               (PortfolioConfig.position_ratio p)
   then [ mk_alert PositionLimit Caution "" "总仓位"
            (PortfolioConfig.position_ratio p) "不建议继续加仓" ]
   else []).

End PortfolioManager.

(** ** Cost price in binary64

    The cost-price arithmetic of [add_position] once more, on IEEE 754
    binary64 values (primitive floats, rounding to nearest, ties to even) as
    Python's [float] has them.  Only the two fields that arithmetic reads
    and writes are kept: the share count and the cost price of the row
    stored under the code. *)

Module Binary64.

(** The conversion Python applies to the [int] operand of [int * float] and
    [float / int]; exact below 2^53 in absolute value. *)
Definition of_int (n : Z) : float :=
  if (n <? 0)%Z
  then PrimFloat.opp (PrimFloat.of_uint63 (Uint63.of_Z (- n)))
  else PrimFloat.of_uint63 (Uint63.of_Z n).

Module Position.

Record t := mk {
  shares : Z;
  cost_price : float
}.

Definition cost_amount (pos : t) : float :=
  PrimFloat.mul (of_int (shares pos)) (cost_price pos).

End Position.

(** [add_position] on the row stored under the code; [None] when the code is
    not in the dict.  The result is the row stored afterwards. *)
Definition add_position (shares : Z) (cost_price : float)
    (row : option Position.t) : Position.t :=
  match row with
  | Some pos =>
      let total_cost :=
        PrimFloat.add (Position.cost_amount pos)
                      (PrimFloat.mul (of_int shares) cost_price) in
      let total_shares := (Position.shares pos + shares)%Z in
      {| Position.shares := total_shares;
         Position.cost_price :=
           if (0 <? total_shares)%Z
           then PrimFloat.div total_cost (of_int total_shares)
           else Position.cost_price pos |}
  | None =>
      {| Position.shares := shares; Position.cost_price := cost_price |}
  end.

(** A run of [add_position] calls on one code that is not held at the
    start. *)
Definition acquire_all (acqs : list (Z * float)) : option Position.t :=
  foldl (λ row a, Some (add_position a.1 a.2 row)) None acqs.

End Binary64.

(** ** Dates

    Dates are strings ['%Y-%m-%d']; Python orders them as strings.
    [String.leb] compares byte by byte, which on the ASCII characters of a
    date is Python's order. *)

Definition date_le (a b : string) : Prop := String.leb a b = true.

#[global] Instance date_le_dec (a b : string) : Decision (date_le a b).
Proof. unfold date_le. apply _. Defined.

(** [sorted(keys)]. *)
Definition sorted (keys : list string) : list string := merge_sort date_le keys.

(** [m.keys()]. *)
Definition keys {A} (m : gmap string A) : list string := (map_to_list m).*1.

(** The pairs [(l[i], l[i+1])] visited by
    [for i, d in enumerate(l[:-1]): ... l[i + 1]]. *)
Fixpoint consecutive (l : list string) : list (string * string) :=
  match l with
  | d :: (d' :: _) as rest => (d, d') :: consecutive rest
  | _ => []
  end.

(** [l[-n:]] for a positive [n]. *)
Definition last_n {A} (n : nat) (l : list A) : list A := drop (length l - n) l.

(** ** PortfolioAPI *)

Module Snapshot.

(** One entry of the persisted snapshot document. *)
Record doc := mk_doc {
  d_total_assets : option Q;
  d_daily_profit_loss : option Q;
  d_daily_return_pct : option Q;
  d_total_return_pct : option Q;
  d_positions_snapshot : option (gmap string Position.doc)
}.

End Snapshot.

Module PortfolioAPI.

(** *** get_dashboard_data

    The embedding covers the position rows and the account totals of the
    summary; the seven-day trend, the trade counters and the risk
    parameters, which only copy fields of the other documents, are left
    out. *)

Record position_row := mk_row {
  row_code : string;
  row_name : string;
  row_shares : Z;
  row_cost_price : Q;
  row_current_price : Q;
  row_market_value : Q;
  row_profit_loss : Q;
  row_profit_loss_pct : Q
}.

(** The body of the loop over [positions.items()]. *)
Definition dashboard_row (code : string) (pos : Position.doc) : position_row :=
  let shares := default 0%Z (Position.d_shares pos) in
  let cost_price := default 0%Q (Position.d_cost_price pos) in
  let current_price := default cost_price (Position.d_current_price pos) in
  let market_value := Zmulf shares current_price in
  let cost_amount := Zmulf shares cost_price in
  let profit_loss := (market_value - cost_amount)%Q in
  let profit_loss_pct :=
    if Qlt_bool 0 cost_amount then (profit_loss / cost_amount * 100)%Q
    else 0%Q in
  {| row_code := code;
     row_name := default "" (Position.d_name pos);
     row_shares := shares;
     row_cost_price := cost_price;
     row_current_price := current_price;
     row_market_value := market_value;
     row_profit_loss := profit_loss;
     row_profit_loss_pct := profit_loss_pct |}.



(** *** get_ai_accuracy *)

Record accuracy_record := mk_record {
  date : string;
  next_date : string;
  prediction : string;
  next_day_return : Q;
  is_correct : bool;
  rec_total_assets : Q
}.

(** The loop state: [accuracy_records], [total_predictions],
    [correct_predictions]. *)
Record tally := mk_tally {
  accuracy_records : list accuracy_record;
  total_predictions : nat;
  correct_predictions : nat
}.

(** The body of the loop over consecutive dates.  Both dates are keys of
    [snapshots], so the two subscripts cannot fail. *)
Definition grade_day (snapshots : gmap string Snapshot.doc) (acc : tally)
    (pair : string * string) : tally :=
  match snapshots !! pair.1, snapshots !! pair.2 with
  | Some current_snap, Some next_snap =>
      let current_assets := default 0%Q (Snapshot.d_total_assets current_snap) in
      let next_assets := default 0%Q (Snapshot.d_total_assets next_snap) in
      if Qlt_bool 0 current_assets then
        let next_day_return :=
          ((next_assets - current_assets) / current_assets * 100)%Q in
        let is_up := Qlt_bool 0 next_day_return in
        let positions_today :=
          default ∅ (Snapshot.d_positions_snapshot current_snap) in
        let had_position := bool_decide (0 < size positions_today) in
        if had_position then
          {| accuracy_records :=
               accuracy_records acc ++
               [ {| date := pair.1;
                    next_date := pair.2;
                    prediction := "持有";
                    next_day_return := next_day_return;
                    is_correct := is_up;
                    rec_total_assets := current_assets |} ];
             total_predictions := S (total_predictions acc);
             correct_predictions :=
               if is_up then S (correct_predictions acc)
               else correct_predictions acc |}
        else acc
      else acc
  | _, _ => acc
  end.

Record month_stat := mk_stat { stat_total : nat; stat_correct : nat }.

(** [record["date"][:7]]. *)
Definition month_of (r : accuracy_record) : string := substring 0 7 (date r).

(** The body of the loop that fills [monthly_stats]. *)
Definition count_month (stats : gmap string month_stat) (r : accuracy_record)
    : gmap string month_stat :=
  let month := month_of r in
  let stats1 :=
    match stats !! month with
    | None => <[month := mk_stat 0 0]> stats
    | Some _ => stats
    end in
  let stats2 :=
    alter (λ s, mk_stat (S (stat_total s)) (stat_correct s)) month stats1 in
  if is_correct r
  then alter (λ s, mk_stat (stat_total s) (S (stat_correct s))) month stats2
  else stats2.

Definition ratio_pct (num den : nat) : Q :=
  if (0 <? den)%nat
  then (inject_Z (Z.of_nat num) / inject_Z (Z.of_nat den) * 100)%Q
  else 0%Q.

Record month_row := mk_month_row {
  month : string;
  month_total : nat;
  month_correct : nat;
  month_accuracy : Q
}.

Record accuracy := mk_accuracy {
  sum_total_predictions : nat;
  sum_correct_predictions : nat;
  accuracy_rate : Q;
  records : list accuracy_record;
  monthly_accuracy : list month_row
}.

Definition grade_all (snapshots : gmap string Snapshot.doc) : tally :=
  foldl (grade_day snapshots) (mk_tally [] 0 0)
        (consecutive (sorted (keys snapshots))).

Definition monthly_stats (rs : list accuracy_record) : gmap string month_stat :=
  foldl count_month ∅ rs.

Definition get_ai_accuracy (snapshots : gmap string Snapshot.doc) : accuracy :=
  let t := grade_all snapshots in
  let stats := monthly_stats (accuracy_records t) in
  {| sum_total_predictions := total_predictions t;
     sum_correct_predictions := correct_predictions t;
     accuracy_rate := ratio_pct (correct_predictions t) (total_predictions t);
     records := last_n 30 (accuracy_records t);
     monthly_accuracy :=
       omap (λ m, (λ s, mk_month_row m (stat_total s) (stat_correct s)
                          (ratio_pct (stat_correct s) (stat_total s)))
                  <$> stats !! m)
            (sorted (keys stats)) |}.

(** *** get_trade_history *)

(** One entry of the persisted trade journal, any key of which may be
    absent. *)
Record trade_doc := mk_trade_doc {
  t_date : option string;
  t_time : option string;
  t_code : option string;
  t_name : option string;
  t_action : option string;
  t_shares : option Z;
  t_price : option Q;
  t_amount : option Q;
  t_commission : option Q;
  t_stamp_duty : option Q;
  t_reason : option string
}.

(** [l[start:]] for an integer [start]: a negative [start] counts from the
    end, and either way the index is clamped to the list. *)
Definition slice_from {A} (start : Z) (l : list A) : list A :=
  let len := Z.of_nat (length l) in
  let i := if (start <? 0)%Z then Z.max (len + start) 0 else Z.min start len in
  drop (Z.to_nat i) l.

(** [trades[-limit:][::-1]]. *)
Definition get_trade_history (limit : Z) (trades : list trade_doc)
    : list trade_doc :=
  reverse (slice_from (- limit) trades).

(** *** The trend and the trade counters of get_dashboard_data *)

Definition date_ge (a b : string) : Prop := date_le b a.

#[global] Instance date_ge_dec (a b : string) : Decision (date_ge a b).
Proof. unfold date_ge. apply _. Defined.

(** [sorted(keys, reverse=True)]. *)
Definition sorted_reverse (keys : list string) : list string :=
  merge_sort date_ge keys.

Record trend_row := mk_trend {
  trend_date : string;
  trend_total_assets : Q;
  trend_daily_profit_loss : Q;
  trend_daily_return_pct : Q
}.

(** The seven-day trend: [sorted(snapshots.keys(), reverse=True)[:7]],
    walked in reverse.  The dates are keys of [snapshots], so the subscript
    cannot fail. *)
Definition daily_returns (snapshots : gmap string Snapshot.doc)
    : list trend_row :=
  omap (λ date,
          (λ snap,
             mk_trend date
               (default 0%Q (Snapshot.d_total_assets snap))
               (default 0%Q (Snapshot.d_daily_profit_loss snap))
               (default 0%Q (Snapshot.d_daily_return_pct snap)))
          <$> snapshots !! date)
       (reverse (take 7 (sorted_reverse (keys snapshots)))).

(** [t.get("action") in actions]. *)
Definition action_in (actions : list string) (t : trade_doc) : bool :=
  match t_action t with
  | Some a => bool_decide (a ∈ actions)
  | None => false
  end.

Record trade_counters := mk_counters {
  trades_total : nat;
  trades_buy : nat;
  trades_sell : nat
}.

Definition trade_stats (trades : list trade_doc) : trade_counters :=
  {| trades_total := length trades;
     trades_buy := length (filter (λ t, action_in ["buy"; "add"] t = true) trades);
     trades_sell :=
       length (filter (λ t, action_in ["sell"; "reduce"] t = true) trades) |}.

End PortfolioAPI.

(** ** Trade journal *)

Module TradeJournal.

Inductive action := Buy | Sell | Add | Reduce.

Record Trade := mk_trade {
  date : string;
  time : string;
  code : string;
  name : string;
  kind : action;
  shares : Z;
  price : Q;
  amount : Q;
  commission : Q;
  stamp_duty : Q;
  reason : string
}.

Inductive failure :=
| UnknownSymbol
| InsufficientShares
| InsufficientCash
| PersistenceFailure.

(** The account together with its journal. *)
Record book := mk_book {
  account : PortfolioConfig.t;
  journal : list Trade
}.

Record result := mk_result {
  answer : failure + Trade;
  after : book
}.

Definition is_acquisition (a : action) : bool :=
  match a with Buy | Add => true | Sell | Reduce => false end.

(** The fee of a trade of the given amount under the account's schedule. *)
Definition commission_of (pf : PortfolioConfig.t) (amount : Q) : Q :=
  py_max (amount * PortfolioConfig.commission_rate pf)%Q
         (PortfolioConfig.min_commission pf).

(** Modelled from the spec: [PortfolioManager.record_trade] is called by
    [trade.py] but its body is not part of the sources at hand.  Following
    section 4.2: for buy/add the commission is
    [max(amount * commission rate, minimum commission)], the stamp duty is
    0, and the trade is rejected with [InsufficientCash], before anything
    is changed, when [amount + commission] exceeds the available cash;
    otherwise the ledger acquires the shares and the cash is decremented by
    [amount + commission].  For sell/reduce the ledger's disposal is
    invoked, which computes the fees and credits the cash itself.  A
    successful trade is appended to the journal; a failed save is reported
    as [PersistenceFailure] with the in-memory state already changed
    (section 7).  [today] and [clock] are the date and time of the call. *)
Definition record_trade (code name : string) (a : action) (shares : Z)
    (price : Q) (reason : string) (today clock : string)
    (disk : disk_outcome) (b : book) : result :=
  let pf := account b in
  let now := today ++ " " ++ clock in
  let amount := Zmulf shares price in
  let fee := commission_of pf amount in
  if is_acquisition a then
    if Qlt_bool (PortfolioConfig.available_cash pf) (amount + fee)%Q then
      mk_result (inl InsufficientCash) b
    else
      let o := PortfolioManager.add_position code name shares price reason
                 now disk pf in
      let pf' :=
        PortfolioConfig.set_available_cash
          (PortfolioConfig.available_cash pf - (amount + fee))%Q
          (PortfolioManager.portfolio o) in
      let t := mk_trade today clock code name a shares price amount fee 0%Q
                 reason in
      if PortfolioManager.ret o
      then mk_result (inr t) (mk_book pf' (journal b ++ [t]))
      else mk_result (inl PersistenceFailure) (mk_book pf' (journal b))
  else
    match PortfolioConfig.positions pf !! code with
    | None => mk_result (inl UnknownSymbol) b
    | Some pos =>
        if (Position.shares pos <? shares)%Z then
          mk_result (inl InsufficientShares) b
        else
          let o := PortfolioManager.reduce_position code shares price
                     now disk pf in
          let t := mk_trade today clock code name a shares price amount fee
                     (amount * PortfolioConfig.stamp_duty_rate pf)%Q reason in
          if PortfolioManager.ret o
          then mk_result (inr t)
                 (mk_book (PortfolioManager.portfolio o) (journal b ++ [t]))
          else mk_result (inl PersistenceFailure)
                 (mk_book (PortfolioManager.portfolio o) (journal b))
    end.

End TradeJournal.

(** ** Snapshot recorder *)

Module SnapshotRecorder.

(** Modelled from the spec: the snapshot object that [take_daily_snapshot]
    returns.  [trade.py] reads its [date], [total_assets],
    [daily_profit_loss], [daily_return_pct] and [total_return_pct]; the copy
    of the position set is the "positions_snapshot" of section 3. *)
Record DailySnapshot := mk_snapshot {
  date : string;
  total_assets : Q;
  daily_profit_loss : Q;
  daily_return_pct : Q;
  total_return_pct : Q;
  positions_snapshot : gmap string Position.t
}.

(** Modelled from the spec: "the previous day's snapshot (if one exists)"
    of section 4.4, read as the entry of the series with the latest date
    before [today]. *)
Definition previous_snapshot (today : string)
    (series : gmap string DailySnapshot) : option DailySnapshot :=
  last (filter (λ d, String.ltb d today = true) (sorted (keys series)))
    ≫= (λ d, series !! d).

(** Modelled from the spec: the day-over-day figures of section 4.4,
    "daily profit/loss = today's total assets - previous day's total assets,
    and daily return % = daily profit/loss / previous day's total assets
    (0 if no previous snapshot or previous total assets is 0)".  The
    parenthesis is read as covering both figures: both are 0 when there is
    no previous snapshot and when the previous total assets is 0.  The
    return is a percentage, as in the example of section 8 (100000 to 102000
    gives 2.0). *)
Definition day_over_day (prev : option DailySnapshot) (assets : Q) : Q * Q :=
  match prev with
  | None => (0%Q, 0%Q)
  | Some p =>
      if Qeq_bool (total_assets p) 0 then (0%Q, 0%Q)
      else
        let delta := (assets - total_assets p)%Q in
        (delta, (delta / total_assets p * 100)%Q)
  end.


End SnapshotRecorder.

(** ** The command line *)

Module TradeCLI.

(** The [price] branch of [main]: a held symbol gets the new quote and the
    configuration is saved; an unknown symbol is reported and nothing else
    happens.  The flag tells which of the two messages is printed. *)
Definition price (code : string) (current_price : Q) (now : string)
    (disk : disk_outcome) (pf : PortfolioConfig.t)
    : bool * PortfolioConfig.t :=
  match PortfolioConfig.positions pf !! code with
  | Some pos =>
      let pos' :=
        {| Position.code := Position.code pos;
           Position.name := Position.name pos;
           Position.shares := Position.shares pos;
           Position.cost_price := Position.cost_price pos;
           Position.current_price := current_price;
           Position.buy_date := Position.buy_date pos;
           Position.last_update := Position.last_update pos;
           Position.notes := Position.notes pos |} in
      (true,
       PortfolioManager.portfolio
         (PortfolioManager.save_config now disk
            (PortfolioConfig.set_positions
               (<[code := pos']> (PortfolioConfig.positions pf)) pf)))
  | None => (false, pf)
  end.

End TradeCLI.

(** ** Vocabulary of the statements *)

(** One call of [add_position] on a fixed symbol: everything but the code. *)
Record acquisition := mk_acq {
  acq_name : string;
  acq_shares : Z;
  acq_price : Q;
  acq_notes : string;
  acq_now : string;
  acq_disk : disk_outcome
}.

Definition acquire (code : string) (pf : PortfolioConfig.t) (a : acquisition)
    : PortfolioConfig.t :=
  PortfolioManager.portfolio
    (PortfolioManager.add_position code (acq_name a) (acq_shares a)
       (acq_price a) (acq_notes a) (acq_now a) (acq_disk a) pf).

Definition acquire_all (code : string) (acqs : list acquisition)
    (pf : PortfolioConfig.t) : PortfolioConfig.t :=
  foldl (acquire code) pf acqs.

(** Sigma shares_i *)
Definition total_shares (acqs : list acquisition) : Z :=
  foldr (λ a s, (acq_shares a + s)%Z) 0%Z acqs.

(** Sigma shares_i * price_i *)
Definition total_outlay (acqs : list acquisition) : Q :=
  foldr (λ a s, (Zmulf (acq_shares a) (acq_price a) + s)%Q) 0%Q acqs.

Definition weighted_average (acqs : list acquisition) : Q :=
  (total_outlay acqs / inject_Z (total_shares acqs))%Q.

(** The two purchases of the end-to-end example: 1000 at 1.50, then 500 at
    1.60. *)
Definition widget_buys : list acquisition :=
  [ mk_acq "Widget" 1000 (3 # 2) "" "2024-01-02 09:30:00" DiskOk;
    mk_acq "Widget" 500 (8 # 5) "" "2024-01-03 09:30:00" DiskOk ].

(** Three purchases of one symbol, 100 at 0.1, 200 at 0.2 and 700 at 2.3, in
    two orders.  A decimal literal stands for the nearest binary64 value, as
    in Python. *)
#[local] Set Warnings "-inexact-float".

Definition small_purchases_first : list (Z * float) :=
  [ (100%Z, 0.1%float); (200%Z, 0.2%float); (700%Z, 2.3%float) ].

Definition large_purchase_second : list (Z * float) :=
  [ (100%Z, 0.1%float); (700%Z, 2.3%float); (200%Z, 0.2%float) ].

#[local] Set Warnings "inexact-float".

(** The ledger invariant: every row of the positions map has a share count
    that is non-negative and not zero. *)
Definition ledger_ok (pf : PortfolioConfig.t) : Prop :=
  map_Forall (λ _ pos, (0 <= Position.shares pos)%Z ∧ Position.shares pos ≠ 0%Z)
             (PortfolioConfig.positions pf).

(** The account of the end-to-end example once both purchases are booked:
    1500 shares of AAA at 2300/1500. *)
Definition widget_position : Position.t :=
  {| Position.code := "AAA";
     Position.name := "Widget";
     Position.shares := 1500;
     Position.cost_price := 23 # 15;
     Position.current_price := 0;
     Position.buy_date := "2024-01-02";
     Position.last_update := "2024-01-03 09:30:00";
     Position.notes := "" |}.

Definition widget_account : PortfolioConfig.t :=
  PortfolioConfig.set_positions {[ "AAA" := widget_position ]}
    (PortfolioConfig.fresh "2024-01-01 09:00:00").

(** A book whose account is the end-to-end example's, with an empty
    journal. *)
Definition widget_book : TradeJournal.book :=
  TradeJournal.mk_book widget_account [].


(** An account holding nothing but the given cash. *)
Definition cash_only (cash : Q) : PortfolioConfig.t :=
  PortfolioConfig.set_available_cash cash
    (PortfolioConfig.fresh "2024-01-01 09:00:00").

(** *** Dashboard against configuration *)







(** *** Accuracy backtest *)

(** [assets[d]]: the total assets recorded on [d] (0 when absent). *)
Definition assets_on (snapshots : gmap string Snapshot.doc) (d : string) : Q :=
  default 0%Q (snapshots !! d ≫= Snapshot.d_total_assets).

(** The positions snapshot recorded on [d] (empty when absent). *)
Definition positions_on (snapshots : gmap string Snapshot.doc) (d : string)
    : gmap string Position.doc :=
  default ∅ (snapshots !! d ≫= Snapshot.d_positions_snapshot).

(** The record the loop appends for a pair of consecutive dates, if any. *)
Definition grade_pair (snapshots : gmap string Snapshot.doc)
    (pair : string * string) : option PortfolioAPI.accuracy_record :=
  match snapshots !! pair.1, snapshots !! pair.2 with
  | Some _, Some _ =>
      let current_assets := assets_on snapshots pair.1 in
      let next_assets := assets_on snapshots pair.2 in
      if Qlt_bool 0 current_assets then
        if bool_decide (0 < size (positions_on snapshots pair.1)) then
          Some (PortfolioAPI.mk_record pair.1 pair.2 "持有"
                  ((next_assets - current_assets) / current_assets * 100)%Q
                  (Qlt_bool 0
                     ((next_assets - current_assets) / current_assets * 100)%Q)
                  current_assets)
        else None
      else None
  | _, _ => None
  end.

(** The records of month [m], and the correct ones among some records. *)
Definition in_month (m : string) (rs : list PortfolioAPI.accuracy_record)
    : list PortfolioAPI.accuracy_record :=
  filter (λ r, PortfolioAPI.month_of r = m) rs.

Definition correct_in (rs : list PortfolioAPI.accuracy_record)
    : list PortfolioAPI.accuracy_record :=
  filter (λ r, PortfolioAPI.is_correct r = true) rs.

(** A snapshot entry with the given total assets and position codes. *)
Definition snapshot_of (assets : Q) (codes : list string) : Snapshot.doc :=
  {| Snapshot.d_total_assets := Some assets;
     Snapshot.d_daily_profit_loss := None;
     Snapshot.d_daily_return_pct := None;
     Snapshot.d_total_return_pct := None;
     Snapshot.d_positions_snapshot :=
       Some (list_to_map
               ((λ c, (c, Position.mk_doc (Some c) None None None None
                                          None None None)) <$> codes)) |}.

(** Three consecutive days: assets rise from day 1 to day 2 and fall from
    day 2 to day 3, with a position held on days 1 and 2. *)
Definition three_days : gmap string Snapshot.doc :=
  {[ "2024-01-02" := snapshot_of 100000 ["AAA"];
     "2024-01-03" := snapshot_of 102000 ["AAA"];
     "2024-01-04" := snapshot_of 101000 ["AAA"] ]}.

(** *** Risk alerts *)

(** When a position calls for an alert of a given type. *)
Definition triggered (p : PortfolioConfig.t) (pos : Position.t)
    (t : PortfolioManager.alert_type) : Prop :=
  let pct := Position.profit_loss_pct pos in
  match t with
  | PortfolioManager.StopLoss => (pct <= - PortfolioConfig.stop_loss_pct p)%Q
  | PortfolioManager.StopLossWarning =>
      (- PortfolioConfig.stop_loss_pct p < pct)%Q
      ∧ (pct <= - (PortfolioConfig.stop_loss_pct p * (7 # 10)))%Q
  | PortfolioManager.TakeProfit => (PortfolioConfig.take_profit_pct p <= pct)%Q
  | PortfolioManager.TakeProfitWarning =>
      (pct < PortfolioConfig.take_profit_pct p)%Q
      ∧ (PortfolioConfig.take_profit_pct p * (8 # 10) <= pct)%Q
  | PortfolioManager.PositionLimit => False
  end.

(** The alert of a given type about a position. *)
Definition alert_about (t : PortfolioManager.alert_type) (pos : Position.t)
    : PortfolioManager.alert :=
  PortfolioManager.mk_alert t
    match t with
    | PortfolioManager.StopLoss => PortfolioManager.Danger
    | PortfolioManager.TakeProfit => PortfolioManager.Success
    | PortfolioManager.TakeProfitWarning => PortfolioManager.Notice
    | _ => PortfolioManager.Caution
    end
    (Position.code pos) (Position.name pos) (Position.profit_loss_pct pos)
    match t with
    | PortfolioManager.StopLoss => "建议止损卖出"
    | PortfolioManager.StopLossWarning => "密切关注，准备止损"
    | PortfolioManager.TakeProfit => "建议分批止盈"
    | PortfolioManager.TakeProfitWarning => "考虑部分止盈"
    | PortfolioManager.PositionLimit => "不建议继续加仓"
    end.

(** The account-level alert. *)
Definition limit_alert (p : PortfolioConfig.t) : PortfolioManager.alert :=
  PortfolioManager.mk_alert PortfolioManager.PositionLimit
    PortfolioManager.Caution "" "总仓位" (PortfolioConfig.position_ratio p)
    "不建议继续加仓".

(** *** Quotes *)

(** A position after it received a quote at [now]. *)
Definition quoted (now : string) (price : Q) (pos : Position.t) : Position.t :=
  {| Position.code := Position.code pos;
     Position.name := Position.name pos;
     Position.shares := Position.shares pos;
     Position.cost_price := Position.cost_price pos;
     Position.current_price := price;
     Position.buy_date := Position.buy_date pos;
     Position.last_update := now;
     Position.notes := Position.notes pos |}.

(** What a quote never touches: code, name, shares, cost price, first
    purchase date and notes. *)
Definition holding (pos : Position.t)
    : string * string * Z * Q * string * string :=
  (Position.code pos, Position.name pos, Position.shares pos,
   Position.cost_price pos, Position.buy_date pos, Position.notes pos).

(** Two quotes for the end-to-end example's account, one of them for a
    symbol it does not hold. *)
Definition widget_quotes : list (string * Q) :=
  [ ("AAA", (17 # 10)%Q); ("BBB", (5 # 1)%Q) ].

(** *** Trade journal documents *)

(** A journal entry that records nothing but its action. *)
Definition trade_of (action : string) : PortfolioAPI.trade_doc :=
  PortfolioAPI.mk_trade_doc None None None None (Some action) None None None
    None None None.

Definition three_trades : list PortfolioAPI.trade_doc :=
  [ trade_of "buy"; trade_of "add"; trade_of "sell" ].

(** The action of a journal entry is one of the four the command line
    knows. *)
Definition known_action (t : PortfolioAPI.trade_doc) : Prop :=
  ∃ a, PortfolioAPI.t_action t = Some a ∧ a ∈ ["buy"; "add"; "sell"; "reduce"].

(** *** A position at its stop-loss line *)

(** Bought at 100, quoted at 92: a loss of exactly 8 %, the default
    stop-loss line. *)
Definition stopped_position : Position.t :=
  {| Position.code := "CCC";
     Position.name := "Sprocket";
     Position.shares := 10;
     Position.cost_price := 100;
     Position.current_price := 92;
     Position.buy_date := "2024-01-02";
     Position.last_update := "2024-01-05 15:00:00";
     Position.notes := "" |}.

Definition stopped_account : PortfolioConfig.t :=
  PortfolioConfig.set_positions {[ "CCC" := stopped_position ]}
    (PortfolioConfig.fresh "2024-01-01 09:00:00").

(** ** Basic facts *)

Lemma Qlt_bool_iff (x y : Q) : Qlt_bool x y = true ↔ (x < y)%Q.
Proof.
  unfold Qlt_bool. rewrite negb_true_iff. split.
  - intros H. apply Qnot_le_lt. intros Hle.
    apply Qle_bool_iff in Hle. congruence.
  - intros H. destruct (Qle_bool y x) eqn:E; [|done].
    apply Qle_bool_iff in E. exfalso. by apply (Qlt_not_le x y).
Qed.

Lemma Qlt_bool_false_iff (x y : Q) : Qlt_bool x y = false ↔ (y <= x)%Q.
Proof.
  unfold Qlt_bool. rewrite negb_false_iff. apply Qle_bool_iff.
Qed.

Lemma py_max_ge_l (a b : Q) : (a <= py_max a b)%Q.
Proof.
  unfold py_max. destruct (Qlt_bool a b) eqn:E.
  - apply Qlt_bool_iff in E. by apply Qlt_le_weak.
  - apply Qle_refl.
Qed.

Lemma py_max_ge_r (a b : Q) : (b <= py_max a b)%Q.
Proof.
  unfold py_max. destruct (Qlt_bool a b) eqn:E.
  - apply Qle_refl.
  - by apply Qlt_bool_false_iff in E.
Qed.

Lemma inject_Z_pos_nonzero (z : Z) : (0 < z)%Z → ¬ (inject_Z z == 0)%Q.
Proof.
  intros Hz He. unfold Qeq, inject_Z in He. simpl in He. lia.
Qed.

Section then_save.
Context (now : string) (disk : disk_outcome) (evs : list log_event)
        (pf : PortfolioConfig.t).

Lemma then_save_positions :
  PortfolioConfig.positions
    (PortfolioManager.portfolio (PortfolioManager.then_save now disk evs pf))
  = PortfolioConfig.positions pf.
Proof. by destruct disk. Qed.

Lemma then_save_cash :
  PortfolioConfig.available_cash
    (PortfolioManager.portfolio (PortfolioManager.then_save now disk evs pf))
  = PortfolioConfig.available_cash pf.
Proof. by destruct disk. Qed.

Lemma then_save_logged :
  ∃ e : log_event,
    PortfolioManager.logged (PortfolioManager.then_save now disk evs pf)
    = (evs ++ [e])%list.
Proof. destruct disk; eexists; reflexivity. Qed.
End then_save.

(** ** The order of dates *)

#[global] Instance date_le_total : Total date_le.
Proof. intros a b. apply String.leb_total. Qed.

Lemma sorted_keys_sorted {A} (m : gmap string A) :
  Sorted date_le (sorted (keys m)).
Proof. apply Sorted_merge_sort. apply _. Qed.

Lemma sorted_keys_NoDup {A} (m : gmap string A) : NoDup (sorted (keys m)).
Proof.
  unfold sorted, keys. rewrite merge_sort_Permutation.
  apply NoDup_fst_map_to_list.
Qed.

Lemma elem_of_sorted_keys {A} (m : gmap string A) (d : string) :
  d ∈ sorted (keys m) ↔ is_Some (m !! d).
Proof.
  unfold sorted, keys. rewrite merge_sort_Permutation.
  rewrite list_elem_of_fmap. split.
  - intros ([k x] & -> & Hin). apply elem_of_map_to_list in Hin. by eexists.
  - intros [x Hx]. exists (d, x). split; [done|]. by apply elem_of_map_to_list.
Qed.

(** [String.compare] is the comparison of the ordered type of strings. *)
Lemma string_compare_OT (a b : string) :
  String.compare a b = String_as_OT.compare a b.
Proof.
  revert b. induction a as [|c a IH]; intros [|c' b]; simpl; reflexivity.
Qed.

Lemma date_le_lt_eq (a b : string) :
  date_le a b ↔ a = b ∨ String_as_OT.lt a b.
Proof.
  unfold date_le, String.leb. rewrite string_compare_OT.
  destruct (String_as_OT.compare_spec a b) as [Heq|Hlt|Hgt]; split; auto.
  - discriminate.
  - intros [-> | Hlt]; exfalso.
    + by apply (irreflexivity String_as_OT.lt b).
    + apply (irreflexivity String_as_OT.lt a). by etransitivity.
Qed.

#[global] Instance date_le_trans : Transitive date_le.
Proof.
  intros a b c. rewrite !date_le_lt_eq.
  intros [-> | Hab] [-> | Hbc]; auto. right. by etransitivity.
Qed.

#[global] Instance date_le_antisym : AntiSymm (=) date_le.
Proof. intros a b. apply String.leb_antisym. Qed.

Lemma ltb_date_le (a b : string) : String.ltb a b = true → date_le a b.
Proof.
  unfold date_le, String.ltb, String.leb. by destruct (String.compare a b).
Qed.

Lemma sorted_keys_ascending {A} (m : gmap string A) :
  StronglySorted date_le (sorted (keys m)).
Proof. apply StronglySorted_merge_sort; apply _. Qed.

(** The last element of an ascending list is its greatest. *)
Lemma last_ascending (l : list string) d :
  StronglySorted date_le l → last l = Some d → ∀ d', d' ∈ l → date_le d' d.
Proof.
  induction 1 as [|a l Hs IH Hall]; [done|].
  destruct l as [|b l].
  - simpl. intros [= <-] d' ->%list_elem_of_singleton.
    apply date_le_lt_eq. by left.
  - rewrite last_cons_cons. intros Hl d' [->|Hin]%elem_of_cons.
    + rewrite Forall_forall in Hall. apply Hall. by apply last_Some_elem_of.
    + by apply IH.
Qed.


(** A date of an ascending, duplicate-free list is not its last element
    exactly when the list has a later date. *)
Lemma not_last_iff_later (l : list string) d :
  StronglySorted date_le l → d ∈ l →
  last l ≠ Some d ↔ ∃ d', d' ∈ l ∧ d' ≠ d ∧ date_le d d'.
Proof.
  intros Hs Hd. split.
  - intros Hl. destruct (last l) as [x|] eqn:Hx.
    + exists x. split; [by apply last_Some_elem_of|].
      split; [congruence|]. by apply (last_ascending l x).
    + apply last_None in Hx. subst. by apply elem_of_nil in Hd.
  - intros (d' & Hd' & Hne & Hle) Hl. apply Hne.
    apply (anti_symm date_le); [|done]. by apply (last_ascending l d).
Qed.

(** ** Weighted-average cost *)

Lemma add_position_held code name s p notes now disk pf pos :
  PortfolioConfig.positions pf !! code = Some pos →
  (0 < Position.shares pos + s)%Z →
  ∃ pos',
    PortfolioConfig.positions
      (PortfolioManager.portfolio
         (PortfolioManager.add_position code name s p notes now disk pf))
      !! code = Some pos'
    ∧ Position.shares pos' = (Position.shares pos + s)%Z
    ∧ Position.cost_price pos'
      = ((Position.cost_amount pos + Zmulf s p)
         / inject_Z (Position.shares pos + s))%Q.
Proof.
  intros Hpos Hs. unfold PortfolioManager.add_position. rewrite Hpos.
  rewrite then_save_positions. simpl. rewrite lookup_insert_eq.
  eexists. split; [reflexivity|]. simpl.
  assert ((0 <? Position.shares pos + s)%Z = true) as -> by by apply Z.ltb_lt.
  done.
Qed.

Lemma add_position_new code name s p notes now disk pf :
  PortfolioConfig.positions pf !! code = None →
  ∃ pos',
    PortfolioConfig.positions
      (PortfolioManager.portfolio
         (PortfolioManager.add_position code name s p notes now disk pf))
      !! code = Some pos'
    ∧ Position.shares pos' = s
    ∧ Position.cost_price pos' = p.
Proof.
  intros Hpos. unfold PortfolioManager.add_position. rewrite Hpos.
  rewrite then_save_positions. simpl. rewrite lookup_insert_eq.
  eexists. split; [reflexivity|]. done.
Qed.

Lemma total_shares_pos acqs :
  Forall (λ a, (0 < acq_shares a)%Z) acqs → (0 <= total_shares acqs)%Z.
Proof.
  induction 1 as [|a acqs Ha _ IH]; simpl; lia.
Qed.

(** Running a sequence of acquisitions on a held symbol adds up the shares
    and the outlay. *)
Lemma acquire_all_held code acqs :
  Forall (λ a, (0 < acq_shares a)%Z) acqs →
  ∀ pf pos,
    PortfolioConfig.positions pf !! code = Some pos →
    (0 < Position.shares pos)%Z →
    ∃ pos',
      PortfolioConfig.positions (acquire_all code acqs pf) !! code = Some pos'
      ∧ Position.shares pos' = (Position.shares pos + total_shares acqs)%Z
      ∧ (Position.cost_amount pos'
         == Position.cost_amount pos + total_outlay acqs)%Q.
Proof.
  induction 1 as [|a acqs Ha Hall IH]; intros pf pos Hpos Hsh.
  - exists pos. simpl. split; [done|]. split; [lia|]. ring.
  - simpl.
    destruct (add_position_held code (acq_name a) (acq_shares a) (acq_price a)
                (acq_notes a) (acq_now a) (acq_disk a) pf pos Hpos)
      as (pos1 & Hlk & Hs1 & Hc1); [lia|].
    destruct (IH (acquire code pf a) pos1 Hlk) as (pos' & Hlk' & Hs' & Hc');
      [lia|].
    exists pos'. split; [done|]. split; [lia|].
    rewrite Hc'. unfold Position.cost_amount at 1. rewrite Hs1, Hc1.
    unfold Zmulf at 1.
    assert (¬ (inject_Z (Position.shares pos + acq_shares a) == 0)%Q)
      by (apply inject_Z_pos_nonzero; lia).
    field. done.
Qed.

Lemma total_shares_perm acqs acqs' :
  acqs ≡ₚ acqs' → total_shares acqs = total_shares acqs'.
Proof.
  induction 1; simpl; lia.
Qed.

Lemma total_outlay_perm acqs acqs' :
  acqs ≡ₚ acqs' → (total_outlay acqs == total_outlay acqs')%Q.
Proof.
  induction 1 as [|a l l' _ IH|a b l|l1 l2 l3 _ IH1 _ IH2]; simpl.
  - reflexivity.
  - by rewrite IH.
  - ring.
  - by rewrite IH1.
Qed.

Lemma weighted_average_perm acqs acqs' :
  acqs ≡ₚ acqs' → (weighted_average acqs == weighted_average acqs')%Q.
Proof.
  intros H. unfold weighted_average.
  by rewrite (total_shares_perm _ _ H), (total_outlay_perm _ _ H).
Qed.

(** A non-empty run of purchases of a symbol that was not held ends with the
    summed shares at the quantity-weighted average price. *)
Lemma acquire_all_new code pf acqs :
  PortfolioConfig.positions pf !! code = None →
  acqs ≠ [] →
  Forall (λ a, (0 < acq_shares a)%Z) acqs →
  ∃ pos,
    PortfolioConfig.positions (acquire_all code acqs pf) !! code = Some pos
    ∧ Position.shares pos = total_shares acqs
    ∧ (Position.cost_price pos == weighted_average acqs)%Q.
Proof.
  intros Hnone Hne Hall. destruct acqs as [|a acqs]; [done|].
  apply Forall_cons in Hall as [Ha Hall]. simpl.
  destruct (add_position_new code (acq_name a) (acq_shares a) (acq_price a)
              (acq_notes a) (acq_now a) (acq_disk a) pf Hnone)
    as (pos1 & Hlk & Hs1 & Hc1).
  destruct (acquire_all_held code acqs Hall (acquire code pf a) pos1 Hlk)
    as (pos & Hlk' & Hs & Hc); [lia|].
  exists pos. split; [done|]. split; [lia|].
  pose proof (total_shares_pos acqs Hall) as Hge.
  assert (¬ (inject_Z (Position.shares pos) == 0)%Q) as Hnz
    by (apply inject_Z_pos_nonzero; lia).
  unfold weighted_average. simpl.
  assert (Position.shares pos = (acq_shares a + total_shares acqs)%Z) as Hs'
    by lia.
  rewrite <- Hs'.
  unfold Position.cost_amount, Zmulf in Hc. rewrite Hs1, Hc1 in Hc.
  unfold Zmulf. rewrite <- Hc. field. done.
Qed.

(** C1, as stated, fails on the arithmetic the code runs.  On binary64
    values, buying 100 at 0.1, then 200 at 0.2, then 700 at 2.3 leaves a cost
    price of 0x1.a8f5c28f5c28ep+0 (printed 1.6599999999999997); the same
    three purchases with the 700 shares bought second leave
    0x1.a8f5c28f5c28fp+0 (printed 1.66).  Both runs end with 1000 shares, and
    the two cost prices are different numbers, so at most one of them is the
    weighted average. *)
Lemma add_position_order_binary64 :
  large_purchase_second ≡ₚ small_purchases_first
  ∧ Binary64.acquire_all small_purchases_first
    = Some (Binary64.Position.mk 1000 0x1.a8f5c28f5c28ep+0)
  ∧ Binary64.acquire_all large_purchase_second
    = Some (Binary64.Position.mk 1000 0x1.a8f5c28f5c28fp+0)
  ∧ PrimFloat.eqb 0x1.a8f5c28f5c28ep+0 0x1.a8f5c28f5c28fp+0 = false
  ∧ PrimFloat.ltb 0x1.a8f5c28f5c28ep+0 0x1.a8f5c28f5c28fp+0 = true.
Proof.
  split.
  - unfold large_purchase_second, small_purchases_first.
    apply perm_skip, perm_swap.
  - vm_compute. done.
Qed.

(** C1, amended.  With the arithmetic carried out exactly (rationals in
    place of binary64 values): for every non-empty sequence of acquisitions
    of one symbol through [add_position], each with shares > 0 and
    price >= 0, applied to an account that does not hold the symbol, the
    resulting position holds the summed shares and its cost price is the
    quantity-weighted average Sigma(shares_i * price_i) / Sigma(shares_i);
    applying the same acquisitions in any other order gives the same cost
    price.  On binary64 values every call rounds, and the order shows in the
    last bits of the stored cost price. *)
Theorem add_position_weighted_average code pf acqs :
  PortfolioConfig.positions pf !! code = None →
  acqs ≠ [] →
  Forall (λ a, (0 < acq_shares a)%Z ∧ (0 <= acq_price a)%Q) acqs →
  ∃ pos,
    PortfolioConfig.positions (acquire_all code acqs pf) !! code = Some pos
    ∧ Position.shares pos = total_shares acqs
    ∧ (Position.cost_price pos == weighted_average acqs)%Q
    ∧ ∀ acqs', acqs' ≡ₚ acqs →
        ∃ pos',
          PortfolioConfig.positions (acquire_all code acqs' pf) !! code
            = Some pos'
          ∧ (Position.cost_price pos' == Position.cost_price pos)%Q.
Proof.
  intros Hnone Hne Hall.
  assert (Forall (λ a, (0 < acq_shares a)%Z) acqs) as Hsh
    by (eapply Forall_impl; [exact Hall|]; by intros a [? _]).
  destruct (acquire_all_new code pf acqs Hnone Hne Hsh)
    as (pos & Hlk & Hs & Hc).
  exists pos. repeat split; try done.
  intros acqs' Hperm.
  assert (acqs' ≠ []) as Hne'.
  { intros ->. apply Permutation_nil_l in Hperm. done. }
  assert (Forall (λ a, (0 < acq_shares a)%Z) acqs') as Hsh'
    by (by rewrite Hperm).
  destruct (acquire_all_new code pf acqs' Hnone Hne' Hsh')
    as (pos' & Hlk' & _ & Hc').
  exists pos'. split; [done|].
  rewrite Hc, Hc'. by apply weighted_average_perm.
Qed.

Lemma add_position_weighted_average_witness :
  ∃ pos,
    PortfolioConfig.positions
      (acquire_all "AAA" widget_buys (PortfolioConfig.fresh "2024-01-01 09:00:00"))
      !! "AAA" = Some pos
    ∧ Position.shares pos = total_shares widget_buys
    ∧ (Position.cost_price pos == weighted_average widget_buys)%Q
    ∧ ∀ acqs', acqs' ≡ₚ widget_buys →
        ∃ pos',
          PortfolioConfig.positions
            (acquire_all "AAA" acqs' (PortfolioConfig.fresh "2024-01-01 09:00:00"))
            !! "AAA" = Some pos'
          ∧ (Position.cost_price pos' == Position.cost_price pos)%Q.
Proof.
  apply (add_position_weighted_average "AAA"
           (PortfolioConfig.fresh "2024-01-01 09:00:00") widget_buys).
  - reflexivity.
  - discriminate.
  - repeat constructor; simpl; try lia; by vm_compute.
Defined.

(** The end-to-end example: after buying 1000 at 1.50 and 500 at 1.60 the
    position holds 1500 shares at 2300/1500 (about 1.5333). *)
Example widget_cost_price :
  ∃ pos,
    PortfolioConfig.positions
      (acquire_all "AAA" widget_buys (PortfolioConfig.fresh "2024-01-01 09:00:00"))
      !! "AAA" = Some pos
    ∧ Position.shares pos = 1500%Z
    ∧ (Position.cost_price pos == 23 # 15)%Q.
Proof.
  vm_compute. eexists. split; [reflexivity|]. split; reflexivity.
Qed.

(** ** Disposal *)

Lemma py_max_Qmax (a b : Q) : (py_max a b == Qmax a b)%Q.
Proof.
  unfold py_max. destruct (Qlt_bool a b) eqn:E.
  - apply Qlt_bool_iff in E. symmetry. apply Q.max_r. by apply Qlt_le_weak.
  - apply Qlt_bool_false_iff in E. symmetry. by apply Q.max_l.
Qed.

(** C2.  When the symbol is not held, or more shares are requested than are
    held, [reduce_position] returns [False], logs the warning naming the
    cause (position missing / shares exceed the holding), and the portfolio,
    in particular the positions map and the available cash, is exactly what
    it was before the call. *)
Theorem reduce_position_rejects code shares sell_price now disk pf :
  (PortfolioConfig.positions pf !! code = None
   ∨ ∃ pos, PortfolioConfig.positions pf !! code = Some pos
            ∧ (Position.shares pos < shares)%Z) →
  let o := PortfolioManager.reduce_position code shares sell_price now disk pf in
  PortfolioManager.ret o = false
  ∧ PortfolioManager.logged o
    = match PortfolioConfig.positions pf !! code with
      | None => [PositionMissing code]
      | Some pos => [SharesExceedHolding shares (Position.shares pos)]
      end
  ∧ Forall (λ e, level_of e = Warning) (PortfolioManager.logged o)
  ∧ PortfolioManager.portfolio o = pf
  ∧ PortfolioConfig.positions (PortfolioManager.portfolio o)
    = PortfolioConfig.positions pf
  ∧ PortfolioConfig.available_cash (PortfolioManager.portfolio o)
    = PortfolioConfig.available_cash pf.
Proof.
  intros [Hnone | (pos & Hpos & Hlt)]; unfold PortfolioManager.reduce_position.
  - rewrite Hnone. simpl. repeat split; try done. by repeat constructor.
  - rewrite Hpos. apply Z.ltb_lt in Hlt. rewrite Hlt. simpl.
    repeat split; try done. by repeat constructor.
Qed.

Lemma reduce_position_rejects_witness :
  let o := PortfolioManager.reduce_position "AAA" 2000 (17 # 10)
             "2024-01-04 10:00:00" DiskOk widget_account in
  PortfolioManager.ret o = false
  ∧ PortfolioManager.logged o
    = match PortfolioConfig.positions widget_account !! "AAA" with
      | None => [PositionMissing "AAA"]
      | Some pos => [SharesExceedHolding 2000 (Position.shares pos)]
      end
  ∧ Forall (λ e, level_of e = Warning) (PortfolioManager.logged o)
  ∧ PortfolioManager.portfolio o = widget_account
  ∧ PortfolioConfig.positions (PortfolioManager.portfolio o)
    = PortfolioConfig.positions widget_account
  ∧ PortfolioConfig.available_cash (PortfolioManager.portfolio o)
    = PortfolioConfig.available_cash widget_account.
Proof.
  apply (reduce_position_rejects "AAA" 2000 (17 # 10) "2024-01-04 10:00:00"
           DiskOk widget_account).
  right. eexists. split; [vm_compute; reflexivity | simpl; lia].
Defined.

(** C4.  A disposal of n shares (0 < n <= held) at price p credits the
    available cash by n*p - max(n*p * commission rate, minimum commission)
    - n*p * stamp-duty rate; the logged net profit is
    (n*p - n * pre-disposal cost price) - commission - stamp duty. *)
Theorem reduce_position_credits code n p now disk pf pos :
  PortfolioConfig.positions pf !! code = Some pos →
  (0 < n <= Position.shares pos)%Z →
  let o := PortfolioManager.reduce_position code n p now disk pf in
  let proceeds := (inject_Z n * p)%Q in
  let commission :=
    Qmax (proceeds * PortfolioConfig.commission_rate pf)
         (PortfolioConfig.min_commission pf) in
  let stamp_duty := (proceeds * PortfolioConfig.stamp_duty_rate pf)%Q in
  let cost := (inject_Z n * Position.cost_price pos)%Q in
  (PortfolioConfig.available_cash (PortfolioManager.portfolio o)
   == PortfolioConfig.available_cash pf + (proceeds - commission - stamp_duty))%Q
  ∧ ∃ net_profit,
      head (PortfolioManager.logged o)
        = Some (if (n =? Position.shares pos)%Z
                then PositionClosed code net_profit
                else PositionReduced code n net_profit)
      ∧ (net_profit == (proceeds - cost) - commission - stamp_duty)%Q.
Proof.
  intros Hpos [Hn Hle]. unfold PortfolioManager.reduce_position.
  rewrite Hpos.
  assert ((Position.shares pos <? n)%Z = false) as -> by by apply Z.ltb_ge.
  cbv zeta. cbn [Position.shares].
  assert ((Position.shares pos - n =? 0)%Z = (n =? Position.shares pos)%Z) as ->.
  { destruct (Z.eqb_spec n (Position.shares pos)) as [->|Hne].
    - apply Z.eqb_eq. lia.
    - apply Z.eqb_neq. lia. }
  destruct (n =? Position.shares pos)%Z.
  - rewrite then_save_cash. simpl. split.
    + unfold Zmulf. by rewrite py_max_Qmax.
    + destruct disk; eexists; (split; [reflexivity|]);
        unfold Zmulf; by rewrite py_max_Qmax.
  - rewrite then_save_cash. simpl. split.
    + unfold Zmulf. by rewrite py_max_Qmax.
    + destruct disk; eexists; (split; [reflexivity|]);
        unfold Zmulf; by rewrite py_max_Qmax.
Qed.

Lemma reduce_position_credits_witness :
  let o := PortfolioManager.reduce_position "AAA" 500 (17 # 10)
             "2024-01-04 10:00:00" DiskOk widget_account in
  let proceeds := (inject_Z 500 * (17 # 10))%Q in
  let commission :=
    Qmax (proceeds * PortfolioConfig.commission_rate widget_account)
         (PortfolioConfig.min_commission widget_account) in
  let stamp_duty :=
    (proceeds * PortfolioConfig.stamp_duty_rate widget_account)%Q in
  let cost := (inject_Z 500 * Position.cost_price widget_position)%Q in
  (PortfolioConfig.available_cash (PortfolioManager.portfolio o)
   == PortfolioConfig.available_cash widget_account
      + (proceeds - commission - stamp_duty))%Q
  ∧ ∃ net_profit,
      head (PortfolioManager.logged o)
        = Some (if (500 =? Position.shares widget_position)%Z
                then PositionClosed "AAA" net_profit
                else PositionReduced "AAA" 500 net_profit)
      ∧ (net_profit == (proceeds - cost) - commission - stamp_duty)%Q.
Proof.
  apply (reduce_position_credits "AAA" 500 (17 # 10) "2024-01-04 10:00:00"
           DiskOk widget_account widget_position).
  - reflexivity.
  - simpl. lia.
Defined.

(** ** The ledger invariant *)

Lemma ledger_ok_then_save now disk evs pf :
  ledger_ok pf →
  ledger_ok (PortfolioManager.portfolio (PortfolioManager.then_save now disk evs pf)).
Proof. unfold ledger_ok. by rewrite then_save_positions. Qed.

Lemma add_position_ledger_ok code name shares price notes now disk pf :
  ledger_ok pf → (0 < shares)%Z →
  ledger_ok (PortfolioManager.portfolio
               (PortfolioManager.add_position code name shares price notes
                  now disk pf)).
Proof.
  intros Hok Hs. unfold PortfolioManager.add_position.
  destruct (PortfolioConfig.positions pf !! code) as [pos|] eqn:Hpos;
    apply ledger_ok_then_save; unfold ledger_ok; simpl;
    apply map_Forall_insert_2; try done; simpl.
  - destruct (Hok code pos Hpos) as [Hge _]. lia.
  - lia.
Qed.

Lemma reduce_position_ledger_ok code shares price now disk pf :
  ledger_ok pf →
  ledger_ok (PortfolioManager.portfolio
               (PortfolioManager.reduce_position code shares price now disk pf)).
Proof.
  intros Hok. unfold PortfolioManager.reduce_position.
  destruct (PortfolioConfig.positions pf !! code) as [pos|] eqn:Hpos; [|done].
  destruct (Z.ltb_spec (Position.shares pos) shares) as [Hlt|Hle]; [done|].
  cbv zeta. cbn [Position.shares].
  destruct (Z.eqb_spec (Position.shares pos - shares) 0) as [Hz|Hnz];
    apply ledger_ok_then_save; unfold ledger_ok; simpl.
  - rewrite delete_insert_eq. by apply map_Forall_delete.
  - apply map_Forall_insert_2; [|done]. simpl. lia.
Qed.

Lemma update_price_ledger_ok now quote ps :
  map_Forall (λ _ pos, (0 <= Position.shares pos)%Z ∧ Position.shares pos ≠ 0%Z) ps →
  map_Forall (λ _ pos, (0 <= Position.shares pos)%Z ∧ Position.shares pos ≠ 0%Z)
             (PortfolioManager.update_price now ps quote).
Proof.
  intros Hok. unfold PortfolioManager.update_price.
  destruct (ps !! quote.1) as [pos|] eqn:Hpos; [|done].
  apply map_Forall_insert_2; [|done]. simpl. by apply (Hok quote.1).
Qed.

Lemma update_prices_ledger_ok prices now disk pf :
  ledger_ok pf →
  ledger_ok (PortfolioManager.portfolio
               (PortfolioManager.update_prices prices now disk pf)).
Proof.
  intros Hok. unfold PortfolioManager.update_prices.
  apply ledger_ok_then_save. unfold ledger_ok in *. simpl.
  revert Hok. generalize (PortfolioConfig.positions pf) as ps.
  induction prices as [|q prices IH]; intros ps Hok; simpl; [done|].
  apply IH. by apply update_price_ledger_ok.
Qed.

Lemma reduce_position_all_deletes code price now disk pf pos :
  PortfolioConfig.positions pf !! code = Some pos →
  PortfolioConfig.positions
    (PortfolioManager.portfolio
       (PortfolioManager.reduce_position code (Position.shares pos) price
          now disk pf)) !! code = None.
Proof.
  intros Hpos. unfold PortfolioManager.reduce_position. rewrite Hpos.
  rewrite Z.ltb_irrefl. cbv zeta. cbn [Position.shares].
  rewrite Z.sub_diag, Z.eqb_refl, then_save_positions. simpl.
  apply lookup_delete_eq.
Qed.

(** C5, as stated, fails: [add_position] does not check the share count, and
    adding 0 shares of a symbol that is not held creates a zero-share row in
    a ledger that had none. *)
Lemma add_position_zero_row :
  ledger_ok (PortfolioConfig.fresh "2024-01-01 09:00:00")
  ∧ PortfolioManager.ret
      (PortfolioManager.add_position "AAA" "Widget" 0 (3 # 2) ""
         "2024-01-02 09:30:00" DiskOk
         (PortfolioConfig.fresh "2024-01-01 09:00:00")) = true
  ∧ ¬ ledger_ok
        (PortfolioManager.portfolio
           (PortfolioManager.add_position "AAA" "Widget" 0 (3 # 2) ""
              "2024-01-02 09:30:00" DiskOk
              (PortfolioConfig.fresh "2024-01-01 09:00:00"))).
Proof.
  split; [|split].
  - apply map_Forall_empty.
  - reflexivity.
  - intros Hok.
    destruct (Hok "AAA"
                {| Position.code := "AAA"; Position.name := "Widget";
                   Position.shares := 0; Position.cost_price := 3 # 2;
                   Position.current_price := 0;
                   Position.buy_date := "2024-01-02";
                   Position.last_update := "2024-01-02 09:30:00";
                   Position.notes := "" |}) as [_ Hne].
    + reflexivity.
    + by apply Hne.
Qed.

(** C5, amended.  Starting from a ledger in which every row has a share
    count that is non-negative and not zero, the same holds after
    [add_position] with shares > 0, after any [reduce_position] and after any
    [update_prices]; a disposal of exactly the held shares deletes the row. *)
Theorem ledger_ok_preserved pf :
  ledger_ok pf →
  (∀ code name shares price notes now disk,
     (0 < shares)%Z →
     ledger_ok (PortfolioManager.portfolio
                  (PortfolioManager.add_position code name shares price notes
                     now disk pf)))
  ∧ (∀ code shares price now disk,
       ledger_ok (PortfolioManager.portfolio
                    (PortfolioManager.reduce_position code shares price
                       now disk pf)))
  ∧ (∀ prices now disk,
       ledger_ok (PortfolioManager.portfolio
                    (PortfolioManager.update_prices prices now disk pf)))
  ∧ (∀ code pos price now disk,
       PortfolioConfig.positions pf !! code = Some pos →
       PortfolioConfig.positions
         (PortfolioManager.portfolio
            (PortfolioManager.reduce_position code (Position.shares pos) price
               now disk pf)) !! code = None).
Proof.
  intros Hok. split; [|split; [|split]].
  - intros. by apply add_position_ledger_ok.
  - intros. by apply reduce_position_ledger_ok.
  - intros. by apply update_prices_ledger_ok.
  - intros. by apply reduce_position_all_deletes.
Qed.

Lemma ledger_ok_preserved_witness :
  (∀ code name shares price notes now disk,
     (0 < shares)%Z →
     ledger_ok (PortfolioManager.portfolio
                  (PortfolioManager.add_position code name shares price notes
                     now disk widget_account)))
  ∧ (∀ code shares price now disk,
       ledger_ok (PortfolioManager.portfolio
                    (PortfolioManager.reduce_position code shares price
                       now disk widget_account)))
  ∧ (∀ prices now disk,
       ledger_ok (PortfolioManager.portfolio
                    (PortfolioManager.update_prices prices now disk
                       widget_account)))
  ∧ (∀ code pos price now disk,
       PortfolioConfig.positions widget_account !! code = Some pos →
       PortfolioConfig.positions
         (PortfolioManager.portfolio
            (PortfolioManager.reduce_position code (Position.shares pos) price
               now disk widget_account)) !! code = None).
Proof.
  apply (ledger_ok_preserved widget_account).
  unfold ledger_ok, widget_account. simpl.
  apply map_Forall_singleton. simpl. split; [lia | discriminate].
Defined.

(** ** Disposing zero shares *)

(** On a held symbol whose share count is not negative, a disposal of zero
    shares passes the only check there is, keeps the share count and debits
    the cash by [max(0, minimum commission)]. *)
Lemma reduce_position_zero_shares code price now disk pf pos :
  PortfolioConfig.positions pf !! code = Some pos →
  (0 < Position.shares pos)%Z →
  let o := PortfolioManager.reduce_position code 0 price now disk pf in
  (PortfolioConfig.available_cash (PortfolioManager.portfolio o)
   == PortfolioConfig.available_cash pf
      - Qmax 0 (PortfolioConfig.min_commission pf))%Q
  ∧ Position.shares <$> PortfolioConfig.positions (PortfolioManager.portfolio o) !! code
    = Some (Position.shares pos).
Proof.
  intros Hpos Hs. unfold PortfolioManager.reduce_position. rewrite Hpos.
  assert ((Position.shares pos <? 0)%Z = false) as -> by (apply Z.ltb_ge; lia).
  cbv zeta. cbn [Position.shares].
  assert ((Position.shares pos - 0 =? 0)%Z = false) as ->
    by (apply Z.eqb_neq; lia).
  rewrite then_save_cash, then_save_positions. simpl. split.
  - rewrite py_max_Qmax. unfold Zmulf.
    assert (inject_Z 0 * price * PortfolioConfig.commission_rate pf == 0)%Q
      as -> by ring.
    ring.
  - rewrite lookup_insert_eq. simpl. f_equal. lia.
Qed.

(** C6.  With the default fee schedule (minimum commission 5), disposing zero
    shares of the 1500 held is accepted: the call returns [True], the share
    count stays 1500, and the available cash drops from 100000 to 99995. *)
Theorem reduce_position_zero_shares_charges_fee :
  let o := PortfolioManager.reduce_position "AAA" 0 (17 # 10)
             "2024-01-04 10:00:00" DiskOk widget_account in
  PortfolioManager.ret o = true
  ∧ Position.shares <$> PortfolioConfig.positions (PortfolioManager.portfolio o) !! "AAA"
    = Some 1500%Z
  ∧ (PortfolioConfig.available_cash widget_account == 100000)%Q
  ∧ (PortfolioConfig.available_cash (PortfolioManager.portfolio o) == 99995)%Q
  ∧ ¬ (PortfolioConfig.available_cash (PortfolioManager.portfolio o)
       == PortfolioConfig.available_cash widget_account)%Q.
Proof.
  vm_compute. repeat split; try reflexivity. discriminate.
Qed.

(** ** Persistence round trip *)

Lemma position_round_trip (p : Position.t) :
  Position.from_dict (Position.to_dict p) = p.
Proof. by destruct p. Qed.

Lemma positions_round_trip (ps : gmap string Position.t) :
  Position.from_dict <$> (Position.to_dict <$> ps) = ps.
Proof.
  rewrite <- map_fmap_compose. rewrite <- (map_fmap_id ps) at 2.
  apply map_fmap_ext. intros i p _. apply position_round_trip.
Qed.

(** C8.  Serialising a configuration with [to_dict] and loading the result
    with [from_dict] gives back the same position set (every field of every
    position), available cash, initial capital, the four risk parameters and
    the three fee parameters. *)
Theorem config_round_trip (now : string) (c : PortfolioConfig.t) :
  let c' := PortfolioConfig.from_dict now (PortfolioConfig.to_dict c) in
  PortfolioConfig.positions c' = PortfolioConfig.positions c
  ∧ PortfolioConfig.available_cash c' = PortfolioConfig.available_cash c
  ∧ PortfolioConfig.initial_capital c' = PortfolioConfig.initial_capital c
  ∧ PortfolioConfig.max_single_position_pct c'
    = PortfolioConfig.max_single_position_pct c
  ∧ PortfolioConfig.stop_loss_pct c' = PortfolioConfig.stop_loss_pct c
  ∧ PortfolioConfig.take_profit_pct c' = PortfolioConfig.take_profit_pct c
  ∧ PortfolioConfig.max_total_position_pct c'
    = PortfolioConfig.max_total_position_pct c
  ∧ PortfolioConfig.commission_rate c' = PortfolioConfig.commission_rate c
  ∧ PortfolioConfig.stamp_duty_rate c' = PortfolioConfig.stamp_duty_rate c
  ∧ PortfolioConfig.min_commission c' = PortfolioConfig.min_commission c.
Proof.
  simpl. repeat split. apply positions_round_trip.
Qed.

(** The timestamps are not part of the round trip: loading refreshes
    [updated_at]. *)
Lemma config_round_trip_updated_at (now : string) (c : PortfolioConfig.t) :
  PortfolioConfig.updated_at
    (PortfolioConfig.from_dict now (PortfolioConfig.to_dict c)) = now.
Proof. reflexivity. Qed.

(** ** Cash check of the trade journal *)

(** C3.  For a buy or an add whose amount plus commission, with commission
    = max(amount * commission rate, minimum commission), exceeds the
    available cash, [record_trade] fails with [InsufficientCash] and returns
    the book unchanged; and no buy or add takes a non-negative available cash
    below zero. *)
Theorem record_trade_insufficient_cash code name a shares price reason
    today clock disk b :
  TradeJournal.is_acquisition a = true →
  let amount := (inject_Z shares * price)%Q in
  let commission :=
    Qmax (amount * PortfolioConfig.commission_rate (TradeJournal.account b))
         (PortfolioConfig.min_commission (TradeJournal.account b)) in
  let r := TradeJournal.record_trade code name a shares price reason
             today clock disk b in
  ((PortfolioConfig.available_cash (TradeJournal.account b)
    < amount + commission)%Q →
   TradeJournal.answer r = inl TradeJournal.InsufficientCash
   ∧ TradeJournal.after r = b)
  ∧ ((0 <= PortfolioConfig.available_cash (TradeJournal.account b))%Q →
     (0 <= PortfolioConfig.available_cash
             (TradeJournal.account (TradeJournal.after r)))%Q).
Proof.
  intros Ha. cbv zeta. unfold TradeJournal.record_trade. rewrite Ha.
  unfold TradeJournal.commission_of, Zmulf.
  set (amount := (inject_Z shares * price)%Q).
  set (pf := TradeJournal.account b).
  destruct (Qlt_bool (PortfolioConfig.available_cash pf)
              (amount + py_max (amount * PortfolioConfig.commission_rate pf)
                               (PortfolioConfig.min_commission pf))) eqn:E.
  - split; [done|]. intros Hge. done.
  - split.
    + intros Hlt. apply Qlt_bool_false_iff in E.
      rewrite py_max_Qmax in E. exfalso. by apply (Qlt_not_le _ _ Hlt).
    + intros _. apply Qlt_bool_false_iff in E.
      match goal with
      | |- context [if ?c then _ else _] => destruct c
      end; simpl; unfold Qminus; by apply -> Qle_minus_iff.
Qed.

Lemma record_trade_insufficient_cash_witness :
  let b := TradeJournal.mk_book (cash_only 1000) [] in
  let amount := (inject_Z 1000 * (3 # 2))%Q in
  let commission :=
    Qmax (amount * PortfolioConfig.commission_rate (TradeJournal.account b))
         (PortfolioConfig.min_commission (TradeJournal.account b)) in
  let r := TradeJournal.record_trade "AAA" "Widget" TradeJournal.Buy 1000
             (3 # 2) "dip" "2024-01-02" "09:30:00" DiskOk b in
  ((PortfolioConfig.available_cash (TradeJournal.account b)
    < amount + commission)%Q →
   TradeJournal.answer r = inl TradeJournal.InsufficientCash
   ∧ TradeJournal.after r = b)
  ∧ ((0 <= PortfolioConfig.available_cash (TradeJournal.account b))%Q →
     (0 <= PortfolioConfig.available_cash
             (TradeJournal.account (TradeJournal.after r)))%Q).
Proof.
  apply (record_trade_insufficient_cash "AAA" "Widget" TradeJournal.Buy 1000
           (3 # 2) "dip" "2024-01-02" "09:30:00" DiskOk
           (TradeJournal.mk_book (cash_only 1000) [])).
  reflexivity.
Defined.

(** The premise of the rejection is met in that book: 1000 < 1500 + 5. *)
Example record_trade_rejects_widget :
  let b := TradeJournal.mk_book (cash_only 1000) [] in
  let r := TradeJournal.record_trade "AAA" "Widget" TradeJournal.Buy 1000
             (3 # 2) "dip" "2024-01-02" "09:30:00" DiskOk b in
  TradeJournal.answer r = inl TradeJournal.InsufficientCash
  ∧ TradeJournal.after r = b.
Proof. by vm_compute. Qed.

(** With enough cash the purchase goes through and the cash is debited by
    amount plus commission: 100000 - (1500 + 5) = 98495. *)
Example record_trade_accepts_widget :
  let b := TradeJournal.mk_book (cash_only 100000) [] in
  let r := TradeJournal.record_trade "AAA" "Widget" TradeJournal.Buy 1000
             (3 # 2) "dip" "2024-01-02" "09:30:00" DiskOk b in
  (∃ t, TradeJournal.answer r = inr t)
  ∧ (PortfolioConfig.available_cash (TradeJournal.account (TradeJournal.after r))
     == 98495)%Q.
Proof. vm_compute. split; [eexists|]; reflexivity. Qed.

(** ** Day-over-day figures of a snapshot *)

Lemma day_over_day_none assets :
  SnapshotRecorder.day_over_day None assets = (0%Q, 0%Q).
Proof. reflexivity. Qed.



(** Without an earlier entry there is no previous snapshot. *)
Lemma previous_snapshot_none today series :
  (∀ d, is_Some (series !! d) → String.ltb d today = false) →
  SnapshotRecorder.previous_snapshot today series = None.
Proof.
  intros Hnone. unfold SnapshotRecorder.previous_snapshot.
  destruct (last _) as [d|] eqn:Hlast; [|done].
  apply last_Some_elem_of in Hlast.
  apply list_elem_of_filter in Hlast as [Hlt Hin].
  apply elem_of_sorted_keys in Hin. rewrite (Hnone d Hin) in Hlt. done.
Qed.



(** ** Sums over the values of a dict *)

Section sum_values.
Context {A : Type}.
Implicit Types (f g : A → Q) (m : gmap string A) (l : list (string * A)).

Lemma foldl_sum_foldr f (a : Q) l :
  (foldl (λ acc kv, acc + f kv.2) a l
   == a + foldr (λ kv s, f kv.2 + s) 0 l)%Q.
Proof.
  revert a. induction l as [|kv l IH]; intros a; simpl.
  - ring.
  - rewrite IH. ring.
Qed.

Lemma foldr_sum_perm f l l' :
  l ≡ₚ l' →
  (foldr (λ kv s, f kv.2 + s) 0 l == foldr (λ kv s, f kv.2 + s) 0 l')%Q.
Proof.
  induction 1 as [|kv l l' _ IH|kv kv' l|l1 l2 l3 _ IH1 _ IH2]; simpl.
  - reflexivity.
  - by rewrite IH.
  - ring.
  - by rewrite IH1.
Qed.

Lemma sum_values_empty f : sum_values f (∅ : gmap string A) = 0%Q.
Proof. unfold sum_values. by rewrite map_to_list_empty. Qed.

Lemma sum_values_insert f m i x :
  m !! i = None →
  (sum_values f (<[i:=x]> m) == f x + sum_values f m)%Q.
Proof.
  intros Hi. unfold sum_values. rewrite !foldl_sum_foldr.
  rewrite (foldr_sum_perm f _ _ (map_to_list_insert m i x Hi)). simpl. ring.
Qed.

End sum_values.



(** ** Dashboard figures against the configuration's derived properties *)












(** ** The accuracy backtest *)

Lemma consecutive_elems (l : list string) d d' :
  (d, d') ∈ consecutive l → d ∈ l ∧ d' ∈ l.
Proof.
  induction l as [|a l IH]; simpl; [by intros ?%elem_of_nil|].
  destruct l as [|b l]; [by intros ?%elem_of_nil|].
  intros [Heq | Hin]%elem_of_cons.
  - injection Heq as -> ->. split; [left | right; left].
  - destruct (IH Hin). split; by right.
Qed.

(** In a list without repetition, the first components of the consecutive
    pairs are all the elements but the last. *)
Lemma consecutive_fst (l : list string) d :
  NoDup l →
  (∃ d', (d, d') ∈ consecutive l) ↔ d ∈ l ∧ last l ≠ Some d.
Proof.
  induction l as [|a l IH]; intros Hnd.
  - simpl. split; [by intros [? ?%elem_of_nil] | by intros [?%elem_of_nil _]].
  - apply NoDup_cons in Hnd as [Ha Hnd]. destruct l as [|b l].
    + simpl. split; [by intros [? ?%elem_of_nil]|].
      intros [->%list_elem_of_singleton Hl]. done.
    + rewrite last_cons_cons.
      change (consecutive (a :: b :: l)) with ((a, b) :: consecutive (b :: l)).
      split.
      * intros (d' & [Heq | Hin]%elem_of_cons).
        -- injection Heq as -> ->. split; [left|].
           intros Hl. apply Ha. by apply last_Some_elem_of.
        -- destruct (proj1 (IH Hnd)) as [Hd Hl]; [by exists d'|].
           split; [by right | done].
      * intros [[-> | Hd]%elem_of_cons Hl].
        -- exists b. left.
        -- destruct (proj2 (IH Hnd)) as [d' Hd']; [done|].
           exists d'. by right.
Qed.

Lemma grade_day_grade_pair snapshots acc pair :
  PortfolioAPI.grade_day snapshots acc pair
  = match grade_pair snapshots pair with
    | Some r =>
        PortfolioAPI.mk_tally
          (PortfolioAPI.accuracy_records acc ++ [r])
          (S (PortfolioAPI.total_predictions acc))
          (if PortfolioAPI.is_correct r
           then S (PortfolioAPI.correct_predictions acc)
           else PortfolioAPI.correct_predictions acc)
    | None => acc
    end.
Proof.
  unfold PortfolioAPI.grade_day, grade_pair, assets_on, positions_on.
  destruct (snapshots !! pair.1) as [c|]; [|done].
  destruct (snapshots !! pair.2) as [n|]; [|done]. simpl.
  destruct (Qlt_bool 0 (default 0%Q (Snapshot.d_total_assets c))); [|done].
  by destruct (bool_decide _).
Qed.

Lemma foldl_grade_day snapshots (pairs : list (string * string)) acc :
  let rs := omap (grade_pair snapshots) pairs in
  let t := foldl (PortfolioAPI.grade_day snapshots) acc pairs in
  PortfolioAPI.accuracy_records t = (PortfolioAPI.accuracy_records acc ++ rs)%list
  ∧ PortfolioAPI.total_predictions t
    = (PortfolioAPI.total_predictions acc + length rs)%nat
  ∧ PortfolioAPI.correct_predictions t
    = (PortfolioAPI.correct_predictions acc + length (correct_in rs))%nat.
Proof.
  revert acc. induction pairs as [|pair pairs IH]; intros acc; simpl.
  - rewrite app_nil_r. repeat split; lia.
  - destruct (IH (PortfolioAPI.grade_day snapshots acc pair)) as (Hr & Ht & Hc).
    rewrite Hr, Ht, Hc. rewrite grade_day_grade_pair.
    destruct (grade_pair snapshots pair) as [r|]; simpl; [|done].
    rewrite <- app_assoc. simpl.
    change (list_omap _ _ (grade_pair snapshots) pairs)
      with (omap (grade_pair snapshots) pairs).
    split; [done|]. split; [lia|].
    unfold correct_in. rewrite filter_cons.
    destruct (decide (PortfolioAPI.is_correct r = true)) as [->|Hf]; simpl.
    + lia.
    + by apply not_true_is_false in Hf as ->.
Qed.

Lemma grade_all_records snapshots :
  let t := PortfolioAPI.grade_all snapshots in
  let rs := omap (grade_pair snapshots) (consecutive (sorted (keys snapshots))) in
  PortfolioAPI.accuracy_records t = rs
  ∧ PortfolioAPI.total_predictions t = length rs
  ∧ PortfolioAPI.correct_predictions t = length (correct_in rs).
Proof.
  apply (foldl_grade_day snapshots _ (PortfolioAPI.mk_tally [] 0 0)).
Qed.

Lemma pct_positive (x : Q) : Qlt_bool 0 (x * 100) = true ↔ (0 < x)%Q.
Proof.
  rewrite Qlt_bool_iff.
  assert (0 == 0 * 100)%Q as Hz by ring. rewrite Hz at 1.
  by apply Qmult_lt_r.
Qed.

Lemma grade_pair_Some snapshots d d' r :
  grade_pair snapshots (d, d') = Some r →
  r = PortfolioAPI.mk_record d d' "持有"
        ((assets_on snapshots d' - assets_on snapshots d)
         / assets_on snapshots d * 100)%Q
        (Qlt_bool 0 ((assets_on snapshots d' - assets_on snapshots d)
                     / assets_on snapshots d * 100)%Q)
        (assets_on snapshots d)
  ∧ (0 < assets_on snapshots d)%Q
  ∧ positions_on snapshots d ≠ ∅.
Proof.
  unfold grade_pair. simpl.
  destruct (snapshots !! d) as [c|]; [|done].
  destruct (snapshots !! d') as [n|]; [|done].
  destruct (Qlt_bool 0 (assets_on snapshots d)) eqn:Ha; [|done].
  case_bool_decide as Hsz; [|done].
  intros [= <-]. split; [done|]. split; [by apply Qlt_bool_iff|].
  apply map_size_non_empty_iff. lia.
Qed.

Lemma grade_pair_counted snapshots d d' :
  is_Some (snapshots !! d) → is_Some (snapshots !! d') →
  (0 < assets_on snapshots d)%Q →
  positions_on snapshots d ≠ ∅ →
  ∃ r, grade_pair snapshots (d, d') = Some r ∧ PortfolioAPI.date r = d.
Proof.
  intros [c Hc] [n Hn] Ha Hp. unfold grade_pair. simpl. rewrite Hc, Hn.
  apply Qlt_bool_iff in Ha. rewrite Ha.
  apply map_size_non_empty_iff in Hp.
  rewrite bool_decide_true by lia. by eexists.
Qed.

(** The dates that are counted as predictions. *)
Lemma graded_dates snapshots d :
  d ∈ PortfolioAPI.date <$>
        PortfolioAPI.accuracy_records (PortfolioAPI.grade_all snapshots)
  ↔ d ∈ sorted (keys snapshots)
    ∧ last (sorted (keys snapshots)) ≠ Some d
    ∧ (0 < assets_on snapshots d)%Q
    ∧ positions_on snapshots d ≠ ∅.
Proof.
  destruct (grade_all_records snapshots) as (-> & _ & _).
  pose proof (sorted_keys_NoDup snapshots) as Hnd.
  rewrite list_elem_of_fmap. split.
  - intros (r & -> & Hr).
    apply list_elem_of_omap in Hr as ([p1 p2] & Hin & Hg).
    apply grade_pair_Some in Hg as (-> & Ha & Hp). simpl.
    destruct (proj1 (consecutive_fst _ p1 Hnd)) as [Hd Hl]; [by exists p2|].
    done.
  - intros (Hd & Hl & Ha & Hp).
    destruct (proj2 (consecutive_fst _ d Hnd)) as [d' Hin]; [done|].
    destruct (consecutive_elems _ _ _ Hin) as [_ Hd'].
    apply elem_of_sorted_keys in Hd, Hd'.
    destruct (grade_pair_counted snapshots d d' Hd Hd' Ha Hp) as (r & Hg & Hr).
    exists r. split; [done|]. apply list_elem_of_omap. by exists (d, d').
Qed.

(** Each record pairs a date with its successor in the sorted series and is
    marked correct exactly when the return over that step is positive. *)
Lemma graded_record snapshots r :
  r ∈ PortfolioAPI.accuracy_records (PortfolioAPI.grade_all snapshots) →
  (PortfolioAPI.date r, PortfolioAPI.next_date r)
    ∈ consecutive (sorted (keys snapshots))
  ∧ PortfolioAPI.next_day_return r
    = ((assets_on snapshots (PortfolioAPI.next_date r)
        - assets_on snapshots (PortfolioAPI.date r))
       / assets_on snapshots (PortfolioAPI.date r) * 100)%Q
  ∧ (PortfolioAPI.is_correct r = true
     ↔ (0 < (assets_on snapshots (PortfolioAPI.next_date r)
             - assets_on snapshots (PortfolioAPI.date r))
            / assets_on snapshots (PortfolioAPI.date r))%Q).
Proof.
  destruct (grade_all_records snapshots) as (-> & _ & _).
  intros ([p1 p2] & Hin & Hg)%list_elem_of_omap.
  apply grade_pair_Some in Hg as (-> & _ & _). simpl.
  split; [done|]. split; [done|]. apply pct_positive.
Qed.

(** *** Monthly tallies *)

Lemma count_month_lookup stats r m :
  PortfolioAPI.count_month stats r !! m
  = if decide (PortfolioAPI.month_of r = m)
    then
      let s := default (PortfolioAPI.mk_stat 0 0) (stats !! m) in
      Some (PortfolioAPI.mk_stat
              (S (PortfolioAPI.stat_total s))
              (if PortfolioAPI.is_correct r
               then S (PortfolioAPI.stat_correct s)
               else PortfolioAPI.stat_correct s))
    else stats !! m.
Proof.
  unfold PortfolioAPI.count_month.
  destruct (decide (PortfolioAPI.month_of r = m)) as [<-|Hne].
  - destruct (stats !! PortfolioAPI.month_of r) as [s|] eqn:Hs;
      destruct (PortfolioAPI.is_correct r);
      rewrite ?lookup_alter_eq, ?lookup_insert_eq, ?Hs; done.
  - destruct (stats !! PortfolioAPI.month_of r) as [s|] eqn:Hs;
      destruct (PortfolioAPI.is_correct r);
      rewrite ?lookup_alter_ne, ?lookup_insert_ne by done; done.
Qed.

Lemma in_month_snoc m rs r :
  in_month m (rs ++ [r])
  = (in_month m rs ++ if decide (PortfolioAPI.month_of r = m) then [r] else [])%list.
Proof.
  unfold in_month. by rewrite filter_app.
Qed.

Lemma correct_in_snoc rs r :
  correct_in (rs ++ [r])
  = (correct_in rs ++ if PortfolioAPI.is_correct r then [r] else [])%list.
Proof.
  unfold correct_in. rewrite filter_app. f_equal.
  rewrite filter_cons, filter_nil.
  destruct (decide _) as [->|Hf]; [done|].
  by apply not_true_is_false in Hf as ->.
Qed.

Lemma monthly_stats_lookup rs m :
  PortfolioAPI.monthly_stats rs !! m
  = match in_month m rs with
    | [] => None
    | _ => Some (PortfolioAPI.mk_stat (length (in_month m rs))
                   (length (correct_in (in_month m rs))))
    end.
Proof.
  induction rs as [|r rs IH] using rev_ind; [done|].
  unfold PortfolioAPI.monthly_stats in *. rewrite foldl_snoc.
  rewrite count_month_lookup, IH, in_month_snoc.
  destruct (decide (PortfolioAPI.month_of r = m)) as [Hm|Hm].
  - rewrite correct_in_snoc, !length_app.
    destruct (in_month m rs) as [|r0 rs0]; simpl;
      destruct (PortfolioAPI.is_correct r); simpl; do 2 f_equal; lia.
  - by rewrite app_nil_r.
Qed.

Lemma monthly_row_tally snapshots row :
  let recs := PortfolioAPI.accuracy_records (PortfolioAPI.grade_all snapshots) in
  row ∈ PortfolioAPI.monthly_accuracy (PortfolioAPI.get_ai_accuracy snapshots) →
  in_month (PortfolioAPI.month row) recs ≠ []
  ∧ PortfolioAPI.month_total row = length (in_month (PortfolioAPI.month row) recs)
  ∧ PortfolioAPI.month_correct row
    = length (correct_in (in_month (PortfolioAPI.month row) recs)).
Proof.
  unfold PortfolioAPI.get_ai_accuracy. simpl.
  intros (m & _ & Hrow)%list_elem_of_omap.
  rewrite monthly_stats_lookup in Hrow.
  destruct (in_month m _) as [|r0 rs0] eqn:Hm; [done|].
  simpl in Hrow. injection Hrow as <-. simpl. by rewrite Hm.
Qed.

Lemma monthly_row_exists snapshots r :
  r ∈ PortfolioAPI.accuracy_records (PortfolioAPI.grade_all snapshots) →
  ∃ row,
    row ∈ PortfolioAPI.monthly_accuracy (PortfolioAPI.get_ai_accuracy snapshots)
    ∧ PortfolioAPI.month row = PortfolioAPI.month_of r.
Proof.
  intros Hr. unfold PortfolioAPI.get_ai_accuracy. simpl.
  set (recs := PortfolioAPI.accuracy_records (PortfolioAPI.grade_all snapshots)) in *.
  assert (r ∈ in_month (PortfolioAPI.month_of r) recs) as Hin
    by (by apply list_elem_of_filter).
  pose proof (monthly_stats_lookup recs (PortfolioAPI.month_of r)) as Hlk.
  destruct (in_month (PortfolioAPI.month_of r) recs) as [|r0 rs0] eqn:Hm;
    [by apply elem_of_nil in Hin|].
  eexists. split.
  - apply list_elem_of_omap. exists (PortfolioAPI.month_of r). split.
    + apply elem_of_sorted_keys. rewrite Hlk. by eexists.
    + rewrite Hlk. reflexivity.
  - reflexivity.
Qed.

(** *** Order and multiplicity of the records *)

Lemma graded_dates_sublist snapshots (l : list string) :
  PortfolioAPI.date <$> omap (grade_pair snapshots) (consecutive l)
  `sublist_of` l.
Proof.
  induction l as [|a l IH]; [constructor|].
  destruct l as [|b l]; [apply sublist_nil_l|].
  change (consecutive (a :: b :: l)) with ((a, b) :: consecutive (b :: l)).
  simpl omap. change (list_omap _ _ ?f ?k) with (omap f k).
  destruct (grade_pair snapshots (a, b)) as [r|] eqn:Hr.
  - apply grade_pair_Some in Hr as (-> & _ & _). rewrite fmap_cons. simpl.
    by apply sublist_skip.
  - by apply sublist_cons.
Qed.

Lemma ascending_sublist (l k : list string) :
  l `sublist_of` k → StronglySorted date_le k → StronglySorted date_le l.
Proof.
  induction 1 as [|x l k Hsub IH|x l k Hsub IH]; intros Hs.
  - constructor.
  - apply StronglySorted_inv in Hs as [Hs Hall]. constructor; [by apply IH|].
    rewrite Forall_forall in *. intros y Hy. apply Hall.
    by apply (elem_of_sublist l k).
  - apply StronglySorted_inv in Hs as [Hs _]. by apply IH.
Qed.

(** The records come in ascending order of their date, no date twice. *)
Lemma graded_dates_ascending snapshots :
  let recs := PortfolioAPI.accuracy_records (PortfolioAPI.grade_all snapshots) in
  StronglySorted date_le (PortfolioAPI.date <$> recs)
  ∧ NoDup (PortfolioAPI.date <$> recs).
Proof.
  cbv zeta. destruct (grade_all_records snapshots) as (Hrecs & _ & _).
  pose proof (graded_dates_sublist snapshots (sorted (keys snapshots))) as Hsub.
  rewrite <- Hrecs in Hsub.
  split; [by apply (ascending_sublist _ _ Hsub), sorted_keys_ascending|].
  by apply (sublist_NoDup _ _ (sorted_keys_NoDup snapshots)).
Qed.

(** The other fields of a record. *)
Lemma graded_record_fields snapshots r :
  r ∈ PortfolioAPI.accuracy_records (PortfolioAPI.grade_all snapshots) →
  PortfolioAPI.prediction r = "持有"
  ∧ PortfolioAPI.rec_total_assets r = assets_on snapshots (PortfolioAPI.date r).
Proof.
  destruct (grade_all_records snapshots) as (-> & _ & _).
  intros ([p1 p2] & Hin & Hg)%list_elem_of_omap.
  by apply grade_pair_Some in Hg as (-> & _ & _).
Qed.

(** *** The monthly rows *)

Lemma monthly_rows (rs : list PortfolioAPI.accuracy_record) (months : list string) :
  Forall (λ m, is_Some (PortfolioAPI.monthly_stats rs !! m)) months →
  omap (λ m, (λ s, PortfolioAPI.mk_month_row m (PortfolioAPI.stat_total s)
                     (PortfolioAPI.stat_correct s)
                     (PortfolioAPI.ratio_pct (PortfolioAPI.stat_correct s)
                        (PortfolioAPI.stat_total s)))
             <$> PortfolioAPI.monthly_stats rs !! m) months
  = (λ m, PortfolioAPI.mk_month_row m (length (in_month m rs))
            (length (correct_in (in_month m rs)))
            (PortfolioAPI.ratio_pct (length (correct_in (in_month m rs)))
               (length (in_month m rs))))
    <$> months.
Proof.
  induction 1 as [|m months [s Hs] _ IH]; [done|].
  simpl. rewrite Hs. simpl. rewrite monthly_stats_lookup in Hs.
  destruct (in_month m rs) as [|r0 rs0] eqn:Hm; [done|].
  injection Hs as <-. simpl. f_equal. exact IH.
Qed.

(** The months of the rows are the sorted keys of [monthly_stats]. *)
Lemma monthly_months snapshots :
  PortfolioAPI.month <$>
    PortfolioAPI.monthly_accuracy (PortfolioAPI.get_ai_accuracy snapshots)
  = sorted (keys (PortfolioAPI.monthly_stats
                    (PortfolioAPI.accuracy_records
                       (PortfolioAPI.grade_all snapshots)))).
Proof.
  unfold PortfolioAPI.get_ai_accuracy. simpl.
  set (recs := PortfolioAPI.accuracy_records (PortfolioAPI.grade_all snapshots)).
  set (months := sorted (keys (PortfolioAPI.monthly_stats recs))).
  assert (Forall (λ m, is_Some (PortfolioAPI.monthly_stats recs !! m)) months)
    as Hvalid.
  { apply Forall_forall. intros m Hm. by apply elem_of_sorted_keys. }
  rewrite (monthly_rows recs months Hvalid), <- list_fmap_compose.
  rewrite <- (list_fmap_id months) at 2.
  apply list_fmap_ext. by intros i m _.
Qed.

(** The accuracy of a monthly row is its correct count over its total, in
    percent; the total of a row is never 0. *)
Lemma monthly_row_accuracy snapshots row :
  row ∈ PortfolioAPI.monthly_accuracy (PortfolioAPI.get_ai_accuracy snapshots) →
  PortfolioAPI.month_total row ≠ 0%nat
  ∧ PortfolioAPI.month_accuracy row
    = (inject_Z (Z.of_nat (PortfolioAPI.month_correct row))
       / inject_Z (Z.of_nat (PortfolioAPI.month_total row)) * 100)%Q.
Proof.
  unfold PortfolioAPI.get_ai_accuracy. simpl.
  intros (m & _ & Hrow)%list_elem_of_omap.
  rewrite monthly_stats_lookup in Hrow.
  destruct (in_month m _) as [|r0 rs0] eqn:Hm; [done|].
  simpl in Hrow. injection Hrow as <-. done.
Qed.

(** C7.  The snapshot dates are taken in ascending order, each once.  A date
    is counted as a prediction exactly when it is not the last date of the
    series, its total assets is positive and its positions snapshot is not
    empty, and it is counted once: the records come in ascending order of
    their date, no date twice.  Each record pairs the date with the next one
    of the series, carries the prediction "持有", the total assets of its
    date and the return (assets[next] - assets[d]) / assets[d] in percent,
    and is correct exactly when (assets[next] - assets[d]) / assets[d] > 0.
    The summary counts the records and the correct ones, and the accuracy
    rate is correct / total, in percent (0 without predictions); the last 30
    records are returned.  The monthly rows come in ascending order of the
    month, each month once; a row tallies the records, and the correct ones,
    whose date has its month as 7-character YYYY-MM prefix, with the
    accuracy correct / total in percent, and every record falls in a row.
    On three consecutive days with a rise then a fall and a position held on
    the first two, this gives 2 predictions, 1 correct, 50 %, the correct
    record being the one of day 1. *)
Theorem get_ai_accuracy_spec (snapshots : gmap string Snapshot.doc) :
  let a := PortfolioAPI.get_ai_accuracy snapshots in
  let recs := PortfolioAPI.accuracy_records (PortfolioAPI.grade_all snapshots) in
  let dates := sorted (keys snapshots) in
  let rows := PortfolioAPI.monthly_accuracy a in
  (StronglySorted date_le dates ∧ NoDup dates
   ∧ ∀ d, d ∈ dates ↔ is_Some (snapshots !! d))
  ∧ (StronglySorted date_le (PortfolioAPI.date <$> recs)
     ∧ NoDup (PortfolioAPI.date <$> recs))
  ∧ (∀ d, d ∈ PortfolioAPI.date <$> recs
        ↔ d ∈ dates ∧ last dates ≠ Some d
          ∧ (0 < assets_on snapshots d)%Q
          ∧ positions_on snapshots d ≠ ∅)
  ∧ (∀ r, r ∈ recs →
       (PortfolioAPI.date r, PortfolioAPI.next_date r) ∈ consecutive dates
       ∧ PortfolioAPI.prediction r = "持有"
       ∧ PortfolioAPI.rec_total_assets r
         = assets_on snapshots (PortfolioAPI.date r)
       ∧ PortfolioAPI.next_day_return r
         = ((assets_on snapshots (PortfolioAPI.next_date r)
             - assets_on snapshots (PortfolioAPI.date r))
            / assets_on snapshots (PortfolioAPI.date r) * 100)%Q
       ∧ (PortfolioAPI.is_correct r = true
          ↔ (0 < (assets_on snapshots (PortfolioAPI.next_date r)
                  - assets_on snapshots (PortfolioAPI.date r))
                 / assets_on snapshots (PortfolioAPI.date r))%Q))
  ∧ PortfolioAPI.sum_total_predictions a = length recs
  ∧ PortfolioAPI.sum_correct_predictions a = length (correct_in recs)
  ∧ (length recs = 0%nat → PortfolioAPI.accuracy_rate a = 0%Q)
  ∧ (length recs ≠ 0%nat →
     PortfolioAPI.accuracy_rate a
     = (inject_Z (Z.of_nat (length (correct_in recs)))
        / inject_Z (Z.of_nat (length recs)) * 100)%Q)
  ∧ PortfolioAPI.records a = last_n 30 recs
  ∧ (StronglySorted date_le (PortfolioAPI.month <$> rows)
     ∧ NoDup (PortfolioAPI.month <$> rows))
  ∧ (∀ row, row ∈ rows →
       in_month (PortfolioAPI.month row) recs ≠ []
       ∧ PortfolioAPI.month_total row
         = length (in_month (PortfolioAPI.month row) recs)
       ∧ PortfolioAPI.month_correct row
         = length (correct_in (in_month (PortfolioAPI.month row) recs))
       ∧ PortfolioAPI.month_accuracy row
         = (inject_Z (Z.of_nat (PortfolioAPI.month_correct row))
            / inject_Z (Z.of_nat (PortfolioAPI.month_total row)) * 100)%Q)
  ∧ (∀ r, r ∈ recs →
       ∃ row, row ∈ rows
              ∧ PortfolioAPI.month row = substring 0 7 (PortfolioAPI.date r))
  ∧ (let a3 := PortfolioAPI.get_ai_accuracy three_days in
     PortfolioAPI.sum_total_predictions a3 = 2%nat
     ∧ PortfolioAPI.sum_correct_predictions a3 = 1%nat
     ∧ (PortfolioAPI.accuracy_rate a3 == 50)%Q
     ∧ (PortfolioAPI.date <$> PortfolioAPI.records a3)
       = ["2024-01-02"; "2024-01-03"]
     ∧ (PortfolioAPI.date <$> correct_in (PortfolioAPI.records a3))
       = ["2024-01-02"]).
Proof.
  cbv zeta.
  destruct (grade_all_records snapshots) as (Hrecs & Htot & Hcor).
  split.
  { split; [apply sorted_keys_ascending|].
    split; [apply sorted_keys_NoDup | apply elem_of_sorted_keys]. }
  split; [apply graded_dates_ascending|].
  split; [apply graded_dates|].
  split.
  { intros r Hr. destruct (graded_record snapshots r Hr) as (? & ? & ?).
    destruct (graded_record_fields snapshots r Hr) as (? & ?). done. }
  split; [by rewrite Hrecs|].
  split; [by rewrite Hrecs|].
  split.
  { unfold PortfolioAPI.get_ai_accuracy. simpl.
    rewrite Htot, <- Hrecs. by intros ->. }
  split.
  { unfold PortfolioAPI.get_ai_accuracy. simpl.
    rewrite Htot, Hcor, <- Hrecs. unfold PortfolioAPI.ratio_pct.
    intros Hne.
    assert ((0 <? length (PortfolioAPI.accuracy_records
                            (PortfolioAPI.grade_all snapshots)))%nat = true)
      as -> by (apply Nat.ltb_lt; lia).
    done. }
  split; [done|].
  split.
  { rewrite monthly_months.
    split; [apply sorted_keys_ascending | apply sorted_keys_NoDup]. }
  split.
  { intros row Hrow.
    destruct (monthly_row_tally snapshots row Hrow) as (? & ? & ?).
    destruct (monthly_row_accuracy snapshots row Hrow) as (_ & ?). done. }
  split; [apply monthly_row_exists|].
  vm_compute. repeat split.
Qed.

(** Three consecutive days, a rise then a fall, with a position held on the
    first two: two predictions, one correct, accuracy 50 %, and the correct
    record is the one of day 1. *)
Example three_days_accuracy :
  let a := PortfolioAPI.get_ai_accuracy three_days in
  PortfolioAPI.sum_total_predictions a = 2%nat
  ∧ PortfolioAPI.sum_correct_predictions a = 1%nat
  ∧ (PortfolioAPI.accuracy_rate a == 50)%Q
  ∧ (PortfolioAPI.date <$> correct_in (PortfolioAPI.records a)) = ["2024-01-02"]
  ∧ ((λ row, (PortfolioAPI.month row, PortfolioAPI.month_total row,
              PortfolioAPI.month_correct row))
       <$> PortfolioAPI.monthly_accuracy a) = [("2024-01", 2%nat, 1%nat)].
Proof. vm_compute. repeat split. Qed.


(** * Further properties of the code *)

(** ** Risk alerts *)

Lemma Qle_bool_false_iff (x y : Q) : Qle_bool x y = false ↔ (y < x)%Q.
Proof.
  split.
  - intros H. apply Qnot_le_lt. intros Hle. apply Qle_bool_iff in Hle.
    congruence.
  - intros H. destruct (Qle_bool x y) eqn:E; [|done].
    apply Qle_bool_iff in E. lra.
Qed.

Lemma position_alerts_elem p pos a :
  a ∈ PortfolioManager.position_alerts p pos
  ↔ ∃ t, triggered p pos t ∧ a = alert_about t pos.
Proof.
  unfold PortfolioManager.position_alerts.
  destruct (Qle_bool (Position.profit_loss_pct pos)
              (- PortfolioConfig.stop_loss_pct p)) eqn:E1;
  destruct (Qle_bool (Position.profit_loss_pct pos)
              (- (PortfolioConfig.stop_loss_pct p * (7 # 10)))) eqn:E2;
  destruct (Qle_bool (PortfolioConfig.take_profit_pct p)
              (Position.profit_loss_pct pos)) eqn:E3;
  destruct (Qle_bool (PortfolioConfig.take_profit_pct p * (8 # 10))
              (Position.profit_loss_pct pos)) eqn:E4;
  rewrite ?Qle_bool_iff, ?Qle_bool_false_iff in *;
  (split;
   [ intros Hin; repeat (apply elem_of_cons in Hin as [-> | Hin]);
     try (by apply elem_of_nil in Hin);
     first [ by (exists PortfolioManager.StopLoss)
           | by (exists PortfolioManager.StopLossWarning)
           | by (exists PortfolioManager.TakeProfit)
           | by (exists PortfolioManager.TakeProfitWarning) ]
   | intros ([] & Ht & ->); simpl in Ht; try done;
     try (exfalso; lra);
     simpl; repeat first [ by left | right ] ]).
Qed.

Lemma risk_alert_elem p a :
  a ∈ PortfolioManager.check_risk_alerts p
  ↔ (∃ code pos t,
       PortfolioConfig.positions p !! code = Some pos
       ∧ triggered p pos t ∧ a = alert_about t pos)
    ∨ ((PortfolioConfig.max_total_position_pct p
        <= PortfolioConfig.position_ratio p)%Q
       ∧ a = limit_alert p).
Proof.
  unfold PortfolioManager.check_risk_alerts. rewrite elem_of_app.
  rewrite list_elem_of_bind. split.
  - intros [(pos & Hin & Hpos) | Hlim].
    + left. apply list_elem_of_fmap in Hpos as ([code pos'] & -> & Hkv).
      apply elem_of_map_to_list in Hkv.
      apply position_alerts_elem in Hin as (t & Ht & ->). by exists code, pos', t.
    + right. destruct (Qle_bool _ _) eqn:E; [|by apply elem_of_nil in Hlim].
      apply list_elem_of_singleton in Hlim. split; [|done].
      by apply Qle_bool_iff.
  - intros [(code & pos & t & Hpos & Ht & ->) | [Hle ->]].
    + left. exists pos. split.
      * apply position_alerts_elem. by exists t.
      * apply list_elem_of_fmap. exists (code, pos). split; [done|].
        by apply elem_of_map_to_list.
    + right. apply Qle_bool_iff in Hle. rewrite Hle.
      by apply list_elem_of_singleton.
Qed.

(** X2.  An alert is reported exactly when it is the alert of some held
    position whose profit/loss % meets the threshold of its type, or the
    account-level alert with the position ratio at or above the limit. *)
Theorem check_risk_alerts_elem p a :
  a ∈ PortfolioManager.check_risk_alerts p
  ↔ (∃ code pos t,
       PortfolioConfig.positions p !! code = Some pos
       ∧ triggered p pos t ∧ a = alert_about t pos)
    ∨ ((PortfolioConfig.max_total_position_pct p
        <= PortfolioConfig.position_ratio p)%Q
       ∧ a = limit_alert p).
Proof. apply risk_alert_elem. Qed.

Lemma position_ratio_no_positions p :
  PortfolioConfig.positions p = ∅ → (PortfolioConfig.position_ratio p == 0)%Q.
Proof.
  intros Hp. unfold PortfolioConfig.position_ratio,
    PortfolioConfig.total_assets, PortfolioConfig.total_market_value.
  rewrite Hp, sum_values_empty.
  destruct (Qeq_bool _ _); [reflexivity|]. unfold Qdiv. ring.
Qed.

(** X1.  With no positions the list of alerts is empty exactly when the
    total-position limit is positive: the position ratio is then 0, and a
    limit of 0 or less is already reached. *)
Theorem check_risk_alerts_no_positions p :
  PortfolioConfig.positions p = ∅ →
  PortfolioManager.check_risk_alerts p = []
  ↔ (0 < PortfolioConfig.max_total_position_pct p)%Q.
Proof.
  intros Hp. pose proof (position_ratio_no_positions p Hp) as Hr.
  unfold PortfolioManager.check_risk_alerts.
  rewrite Hp, map_to_list_empty. simpl.
  destruct (Qle_bool _ _) eqn:E.
  - apply Qle_bool_iff in E. rewrite Hr in E. split; [done|]. lra.
  - apply Qle_bool_false_iff in E. rewrite Hr in E. done.
Qed.

Lemma check_risk_alerts_no_positions_witness :
  PortfolioManager.check_risk_alerts
    (PortfolioConfig.fresh "2024-01-01 09:00:00") = []
  ↔ (0 < PortfolioConfig.max_total_position_pct
           (PortfolioConfig.fresh "2024-01-01 09:00:00"))%Q.
Proof.
  apply (check_risk_alerts_no_positions
           (PortfolioConfig.fresh "2024-01-01 09:00:00")).
  reflexivity.
Defined.

Lemma position_alerts_at_most_one p pos :
  (0 < PortfolioConfig.stop_loss_pct p)%Q →
  (0 < PortfolioConfig.take_profit_pct p)%Q →
  (length (PortfolioManager.position_alerts p pos) ≤ 1)%nat.
Proof.
  intros Hs Ht. unfold PortfolioManager.position_alerts.
  destruct (Qle_bool (Position.profit_loss_pct pos)
              (- PortfolioConfig.stop_loss_pct p)) eqn:E1;
  destruct (Qle_bool (Position.profit_loss_pct pos)
              (- (PortfolioConfig.stop_loss_pct p * (7 # 10)))) eqn:E2;
  destruct (Qle_bool (PortfolioConfig.take_profit_pct p)
              (Position.profit_loss_pct pos)) eqn:E3;
  destruct (Qle_bool (PortfolioConfig.take_profit_pct p * (8 # 10))
              (Position.profit_loss_pct pos)) eqn:E4;
  rewrite ?Qle_bool_iff, ?Qle_bool_false_iff in *;
  simpl; try lia; exfalso; lra.
Qed.

Lemma length_bind_at_most_one {A B} (f : A → list B) (l : list A) :
  (∀ x, (length (f x) ≤ 1)%nat) → (length (l ≫= f) ≤ length l)%nat.
Proof.
  intros Hf. induction l as [|x l IH]; [done|].
  rewrite bind_cons, length_app. specialize (Hf x). simpl. lia.
Qed.

(** X3.  With a positive stop-loss and a positive take-profit threshold a
    position gives rise to at most one alert, so there are never more alerts
    than positions plus the one account-level alert. *)
Theorem check_risk_alerts_length p :
  (0 < PortfolioConfig.stop_loss_pct p)%Q →
  (0 < PortfolioConfig.take_profit_pct p)%Q →
  (length (PortfolioManager.check_risk_alerts p)
   ≤ size (PortfolioConfig.positions p) + 1)%nat.
Proof.
  intros Hs Ht. unfold PortfolioManager.check_risk_alerts.
  rewrite length_app.
  pose proof (length_bind_at_most_one (PortfolioManager.position_alerts p)
                ((map_to_list (PortfolioConfig.positions p)).*2)
                (λ pos, position_alerts_at_most_one p pos Hs Ht)) as Hb.
  rewrite length_fmap, length_map_to_list in Hb.
  destruct (Qle_bool _ _); simpl; lia.
Qed.

Lemma check_risk_alerts_length_witness :
  (length (PortfolioManager.check_risk_alerts widget_account)
   ≤ size (PortfolioConfig.positions widget_account) + 1)%nat.
Proof.
  apply (check_risk_alerts_length widget_account); by vm_compute.
Defined.

(** ** Quotes *)

Lemma update_price_lookup now ps quote code :
  PortfolioManager.update_price now ps quote !! code
  = if decide (quote.1 = code) then quoted now quote.2 <$> ps !! code
    else ps !! code.
Proof.
  unfold PortfolioManager.update_price.
  destruct (decide (quote.1 = code)) as [<-|Hne].
  - destruct (ps !! quote.1) as [pos|] eqn:Hpos.
    + by rewrite lookup_insert_eq.
    + by rewrite Hpos.
  - destruct (ps !! quote.1) as [pos|] eqn:Hpos; [|done].
    by rewrite lookup_insert_ne.
Qed.

Lemma update_prices_positions prices now disk pf :
  PortfolioConfig.positions
    (PortfolioManager.portfolio
       (PortfolioManager.update_prices prices now disk pf))
  = foldl (PortfolioManager.update_price now) (PortfolioConfig.positions pf)
          prices.
Proof.
  unfold PortfolioManager.update_prices. by rewrite then_save_positions.
Qed.

Lemma foldl_update_price_holding now prices ps code :
  holding <$> foldl (PortfolioManager.update_price now) ps prices !! code
  = holding <$> ps !! code.
Proof.
  revert ps. induction prices as [|q prices IH]; intros ps; simpl; [done|].
  rewrite IH, update_price_lookup. destruct (decide (q.1 = code)); [|done].
  by destruct (ps !! code).
Qed.

Lemma foldl_update_price_unquoted now prices ps code :
  code ∉ prices.*1 →
  foldl (PortfolioManager.update_price now) ps prices !! code = ps !! code.
Proof.
  revert ps. induction prices as [|q prices IH]; intros ps Hnin; simpl; [done|].
  rewrite fmap_cons in Hnin. apply not_elem_of_cons in Hnin as [Hne Hnin].
  rewrite IH by done. rewrite update_price_lookup.
  destruct (decide (q.1 = code)); [congruence|done].
Qed.

Lemma foldl_update_price_quoted now prices ps code price :
  NoDup prices.*1 → (code, price) ∈ prices →
  foldl (PortfolioManager.update_price now) ps prices !! code
  = quoted now price <$> ps !! code.
Proof.
  revert ps. induction prices as [|q prices IH]; intros ps Hnd Hin.
  - by apply elem_of_nil in Hin.
  - rewrite fmap_cons in Hnd. apply NoDup_cons in Hnd as [Hq Hnd].
    apply elem_of_cons in Hin as [<- | Hin]; simpl.
    + rewrite foldl_update_price_unquoted by done.
      rewrite update_price_lookup. simpl. by rewrite decide_True.
    + rewrite IH by done. rewrite update_price_lookup.
      destruct (decide (q.1 = code)) as [Heq|]; [|done].
      exfalso. apply Hq. rewrite Heq.
      apply list_elem_of_fmap. by exists (code, price).
Qed.

(** X4.  [update_prices] never changes what is held: for every code the
    position's code, name, shares, cost price, purchase date and notes are
    what they were (and a code that was not held is still not held), and the
    available cash is untouched. *)
Theorem update_prices_keeps_holdings prices now disk pf :
  let after :=
    PortfolioManager.portfolio
      (PortfolioManager.update_prices prices now disk pf) in
  (∀ code,
     holding <$> PortfolioConfig.positions after !! code
     = holding <$> PortfolioConfig.positions pf !! code)
  ∧ PortfolioConfig.available_cash after = PortfolioConfig.available_cash pf
  ∧ (PortfolioConfig.total_cost after == PortfolioConfig.total_cost pf)%Q.
Proof.
  cbv zeta. split; [|split].
  - intros code. rewrite update_prices_positions.
    apply foldl_update_price_holding.
  - unfold PortfolioManager.update_prices. by rewrite then_save_cash.
  - unfold PortfolioConfig.total_cost. rewrite update_prices_positions.
    generalize (PortfolioConfig.positions pf) as ps.
    induction prices as [|q prices IH]; intros ps; simpl; [reflexivity|].
    rewrite IH. unfold PortfolioManager.update_price.
    destruct (ps !! q.1) as [pos|] eqn:Hpos; [|reflexivity].
    rewrite <- (insert_delete_id ps q.1 pos Hpos) at 2.
    rewrite <- (insert_delete_eq ps).
    rewrite !sum_values_insert by apply lookup_delete_eq. reflexivity.
Qed.

(** X5.  For a dict of quotes (each code once): a held symbol that is quoted
    gets the quote as its current price and [now] as its last update, a held
    symbol that is not quoted is left as it was, and a quote for a symbol
    that is not held creates nothing. *)
Theorem update_prices_quotes prices now disk pf :
  NoDup prices.*1 →
  let after :=
    PortfolioConfig.positions
      (PortfolioManager.portfolio
         (PortfolioManager.update_prices prices now disk pf)) in
  (∀ code price,
     (code, price) ∈ prices →
     after !! code = quoted now price <$> PortfolioConfig.positions pf !! code)
  ∧ (∀ code, code ∉ prices.*1 →
       after !! code = PortfolioConfig.positions pf !! code)
  ∧ (∀ code, PortfolioConfig.positions pf !! code = None →
       after !! code = None).
Proof.
  intros Hnd. cbv zeta. rewrite update_prices_positions. split; [|split].
  - intros code price Hin. by apply foldl_update_price_quoted.
  - intros code Hnin. by apply foldl_update_price_unquoted.
  - intros code Hnone.
    pose proof (foldl_update_price_holding now prices
                  (PortfolioConfig.positions pf) code) as H.
    rewrite Hnone in H. by destruct (foldl _ _ _ !! code).
Qed.

Lemma update_prices_quotes_witness :
  let after :=
    PortfolioConfig.positions
      (PortfolioManager.portfolio
         (PortfolioManager.update_prices widget_quotes "2024-01-04 15:00:00"
            DiskOk widget_account)) in
  (∀ code price,
     (code, price) ∈ widget_quotes →
     after !! code
     = quoted "2024-01-04 15:00:00" price
         <$> PortfolioConfig.positions widget_account !! code)
  ∧ (∀ code, code ∉ widget_quotes.*1 →
       after !! code = PortfolioConfig.positions widget_account !! code)
  ∧ (∀ code, PortfolioConfig.positions widget_account !! code = None →
       after !! code = None).
Proof.
  apply (update_prices_quotes widget_quotes "2024-01-04 15:00:00" DiskOk
           widget_account).
  unfold widget_quotes. simpl. apply NoDup_cons. split.
  - intros Hin. apply list_elem_of_singleton in Hin. discriminate Hin.
  - apply NoDup_singleton.
Defined.

(** ** The ledger operations and the disk *)

Lemma then_save_ret now disk evs pf :
  PortfolioManager.ret (PortfolioManager.then_save now disk evs pf) = true
  ↔ disk = DiskOk.
Proof. by destruct disk. Qed.

Lemma add_position_positions_any_disk code name shares price notes now
    disk disk' pf :
  PortfolioConfig.positions
    (PortfolioManager.portfolio
       (PortfolioManager.add_position code name shares price notes now disk pf))
  = PortfolioConfig.positions
      (PortfolioManager.portfolio
         (PortfolioManager.add_position code name shares price notes now
            disk' pf)).
Proof.
  unfold PortfolioManager.add_position.
  destruct (PortfolioConfig.positions pf !! code);
    by rewrite !then_save_positions.
Qed.

(** X6.  [add_position] returns [True] exactly when the save succeeds, but
    the position is booked in memory whatever the disk does: after the call
    the symbol is held, with the same positions map for every disk
    outcome. *)
Theorem add_position_booked_despite_disk code name shares price notes now
    disk pf :
  let o := PortfolioManager.add_position code name shares price notes now
             disk pf in
  (PortfolioManager.ret o = true ↔ disk = DiskOk)
  ∧ PortfolioManager.has_position code (PortfolioManager.portfolio o) = true
  ∧ PortfolioConfig.positions (PortfolioManager.portfolio o)
    = PortfolioConfig.positions
        (PortfolioManager.portfolio
           (PortfolioManager.add_position code name shares price notes now
              DiskOk pf)).
Proof.
  cbv zeta. split; [|split].
  - unfold PortfolioManager.add_position.
    destruct (PortfolioConfig.positions pf !! code); apply then_save_ret.
  - unfold PortfolioManager.has_position. apply bool_decide_eq_true.
    unfold PortfolioManager.add_position.
    destruct (PortfolioConfig.positions pf !! code);
      rewrite then_save_positions; simpl; rewrite lookup_insert_eq; by eexists.
  - apply add_position_positions_any_disk.
Qed.

(** X7.  The ledger operations on one symbol leave every other symbol's
    position as it was, and [add_position] leaves the available cash as it
    was. *)
Theorem position_operations_frame code other pf :
  other ≠ code →
  (∀ name shares price notes now disk,
     let after :=
       PortfolioManager.portfolio
         (PortfolioManager.add_position code name shares price notes now
            disk pf) in
     PortfolioConfig.positions after !! other
       = PortfolioConfig.positions pf !! other
     ∧ PortfolioConfig.available_cash after = PortfolioConfig.available_cash pf)
  ∧ (∀ shares price now disk,
       PortfolioConfig.positions
         (PortfolioManager.portfolio
            (PortfolioManager.reduce_position code shares price now disk pf))
         !! other
       = PortfolioConfig.positions pf !! other).
Proof.
  intros Hne. split.
  - intros name shares price notes now disk. cbv zeta.
    unfold PortfolioManager.add_position.
    destruct (PortfolioConfig.positions pf !! code);
      rewrite then_save_positions, then_save_cash; simpl;
      by rewrite lookup_insert_ne.
  - intros shares price now disk. unfold PortfolioManager.reduce_position.
    destruct (PortfolioConfig.positions pf !! code) as [pos|]; [|done].
    destruct (Position.shares pos <? shares)%Z; [done|].
    cbv zeta. cbn [Position.shares].
    destruct (Position.shares pos - shares =? 0)%Z;
      rewrite then_save_positions; simpl;
      rewrite ?lookup_delete_ne by done; by rewrite lookup_insert_ne.
Qed.

Lemma position_operations_frame_witness :
  (∀ name shares price notes now disk,
     let after :=
       PortfolioManager.portfolio
         (PortfolioManager.add_position "AAA" name shares price notes now
            disk widget_account) in
     PortfolioConfig.positions after !! "BBB"
       = PortfolioConfig.positions widget_account !! "BBB"
     ∧ PortfolioConfig.available_cash after
       = PortfolioConfig.available_cash widget_account)
  ∧ (∀ shares price now disk,
       PortfolioConfig.positions
         (PortfolioManager.portfolio
            (PortfolioManager.reduce_position "AAA" shares price now disk
               widget_account))
         !! "BBB"
       = PortfolioConfig.positions widget_account !! "BBB").
Proof.
  apply (position_operations_frame "AAA" "BBB" widget_account). discriminate.
Defined.

(** ** Partial disposal *)

(** X9.  Any disposal of fewer shares than are held keeps the position with
    its cost price, current price, name, purchase date and notes; only the
    share count, which drops by the shares sold, and the last update change.
    The only test is against the holding, so this includes a share count of
    zero or below, which leaves the count unchanged or raises it. *)
Theorem reduce_position_partial code n price now disk pf pos :
  PortfolioConfig.positions pf !! code = Some pos →
  (n < Position.shares pos)%Z →
  let o := PortfolioManager.reduce_position code n price now disk pf in
  PortfolioConfig.positions (PortfolioManager.portfolio o) !! code
  = Some {| Position.code := Position.code pos;
            Position.name := Position.name pos;
            Position.shares := (Position.shares pos - n)%Z;
            Position.cost_price := Position.cost_price pos;
            Position.current_price := Position.current_price pos;
            Position.buy_date := Position.buy_date pos;
            Position.last_update := now;
            Position.notes := Position.notes pos |}
  ∧ (PortfolioManager.ret o = true ↔ disk = DiskOk).
Proof.
  intros Hpos Hn. cbv zeta. unfold PortfolioManager.reduce_position.
  rewrite Hpos.
  assert ((Position.shares pos <? n)%Z = false) as -> by (apply Z.ltb_ge; lia).
  cbv zeta. cbn [Position.shares].
  assert ((Position.shares pos - n =? 0)%Z = false) as ->
    by (apply Z.eqb_neq; lia).
  rewrite then_save_positions. split.
  - simpl. by rewrite lookup_insert_eq.
  - apply then_save_ret.
Qed.

Lemma reduce_position_partial_witness :
  let o := PortfolioManager.reduce_position "AAA" (-100) (17 # 10)
             "2024-01-05 10:00:00" DiskOk widget_account in
  PortfolioConfig.positions (PortfolioManager.portfolio o) !! "AAA"
  = Some {| Position.code := Position.code widget_position;
            Position.name := Position.name widget_position;
            Position.shares := (Position.shares widget_position - -100)%Z;
            Position.cost_price := Position.cost_price widget_position;
            Position.current_price := Position.current_price widget_position;
            Position.buy_date := Position.buy_date widget_position;
            Position.last_update := "2024-01-05 10:00:00";
            Position.notes := Position.notes widget_position |}
  ∧ (PortfolioManager.ret o = true ↔ DiskOk = DiskOk).
Proof.
  apply (reduce_position_partial "AAA" (-100) (17 # 10) "2024-01-05 10:00:00"
           DiskOk widget_account widget_position).
  - reflexivity.
  - simpl. lia.
Defined.

(** ** Valuation *)

Lemma profit_loss_pct_cases (pos : Position.t) :
  (Position.shares pos ≠ 0%Z → ¬ (Position.cost_price pos == 0)%Q →
   (Position.profit_loss_pct pos
    == (Position.current_price pos - Position.cost_price pos)
       / Position.cost_price pos * 100)%Q)
  ∧ (Position.shares pos = 0%Z ∨ (Position.cost_price pos == 0)%Q →
     Position.profit_loss_pct pos = 0%Q).
Proof.
  unfold Position.profit_loss_pct, Position.profit_loss, Position.market_value,
    Position.cost_amount, Zmulf.
  split.
  - intros Hs Hc.
    assert (¬ (inject_Z (Position.shares pos) == 0)%Q) as Hs'.
    { intros H. apply Hs. unfold Qeq, inject_Z in H. simpl in H. lia. }
    destruct (Qeq_bool _ _) eqn:E.
    + apply Qeq_bool_iff in E. exfalso.
      apply Qmult_integral in E as [E|E]; done.
    + field. done.
  - intros Hz.
    assert (inject_Z (Position.shares pos) * Position.cost_price pos == 0)%Q
      as E.
    { destruct Hz as [-> | ->]; ring. }
    apply Qeq_bool_iff in E. by rewrite E.
Qed.

(** X11.  A symbol bought for the first time is booked with a current price
    of 0: until a quote arrives its market value is 0 and, for a share count
    and a price other than 0, its profit/loss % is -100. *)
Theorem add_position_unquoted code name shares price notes now disk pf :
  PortfolioConfig.positions pf !! code = None →
  shares ≠ 0%Z → ¬ (price == 0)%Q →
  ∃ pos,
    PortfolioManager.get_position code
      (PortfolioManager.portfolio
         (PortfolioManager.add_position code name shares price notes now
            disk pf)) = Some pos
    ∧ Position.current_price pos = 0%Q
    ∧ Position.buy_date pos = split_first now
    ∧ (Position.market_value pos == 0)%Q
    ∧ (Position.profit_loss_pct pos == - (100))%Q.
Proof.
  intros Hnone Hs Hp. unfold PortfolioManager.get_position,
    PortfolioManager.add_position. rewrite Hnone, then_save_positions. simpl.
  rewrite lookup_insert_eq. eexists. split; [reflexivity|].
  split; [done|]. split; [done|]. split.
  - unfold Position.market_value, Zmulf. simpl. ring.
  - destruct (profit_loss_pct_cases
                {| Position.code := code; Position.name := name;
                   Position.shares := shares; Position.cost_price := price;
                   Position.current_price := 0;
                   Position.buy_date := split_first now;
                   Position.last_update := now; Position.notes := notes |})
      as [H _].
    rewrite H by done. simpl. field. done.
Qed.

Lemma add_position_unquoted_witness :
  ∃ pos,
    PortfolioManager.get_position "BBB"
      (PortfolioManager.portfolio
         (PortfolioManager.add_position "BBB" "Gadget" 200 (5 # 1) ""
            "2024-01-05 09:30:00" DiskOk widget_account)) = Some pos
    ∧ Position.current_price pos = 0%Q
    ∧ Position.buy_date pos = split_first "2024-01-05 09:30:00"
    ∧ (Position.market_value pos == 0)%Q
    ∧ (Position.profit_loss_pct pos == - (100))%Q.
Proof.
  apply (add_position_unquoted "BBB" "Gadget" 200 (5 # 1) ""
           "2024-01-05 09:30:00" DiskOk widget_account).
  - reflexivity.
  - discriminate.
  - discriminate.
Defined.

Lemma sum_values_nonneg {A} (f : A → Q) (m : gmap string A) :
  (∀ i x, m !! i = Some x → (0 <= f x)%Q) → (0 <= sum_values f m)%Q.
Proof.
  induction m as [|i x m Hi IH] using map_ind; intros Hf.
  - rewrite sum_values_empty. lra.
  - rewrite sum_values_insert by done.
    pose proof (Hf i x (lookup_insert_eq m i x)).
    assert (0 <= sum_values f m)%Q; [|lra].
    apply IH. intros j y Hj. apply (Hf j). rewrite lookup_insert_ne; [done|].
    intros ->. congruence.
Qed.

(** X12.  With a non-negative available cash and positions whose share
    counts and current prices are non-negative, the position ratio lies
    between 0 and 100. *)
Theorem position_ratio_bounds (c : PortfolioConfig.t) :
  (0 <= PortfolioConfig.available_cash c)%Q →
  map_Forall (λ _ pos, (0 <= Position.shares pos)%Z
                       ∧ (0 <= Position.current_price pos)%Q)
             (PortfolioConfig.positions c) →
  (0 <= PortfolioConfig.position_ratio c)%Q
  ∧ (PortfolioConfig.position_ratio c <= 100)%Q.
Proof.
  intros Hcash Hpos.
  assert (0 <= PortfolioConfig.total_market_value c)%Q as Hmv.
  { apply sum_values_nonneg. intros i pos Hi.
    destruct (Hpos i pos Hi) as [Hs Hp].
    unfold Position.market_value, Zmulf. apply Qmult_le_0_compat; [|done].
    rewrite <- (Zle_Qle 0). done. }
  unfold PortfolioConfig.position_ratio, PortfolioConfig.total_assets.
  set (mv := PortfolioConfig.total_market_value c) in *.
  set (cash := PortfolioConfig.available_cash c) in *.
  destruct (Qeq_bool (cash + mv) 0) eqn:E; [lra|].
  apply Qeq_bool_neq in E.
  assert (0 < cash + mv)%Q as Hpos' by lra.
  assert (0 <= mv / (cash + mv))%Q
    by (apply Qle_shift_div_l; [done|]; lra).
  assert (mv / (cash + mv) <= 1)%Q
    by (apply Qle_shift_div_r; [done|]; lra).
  lra.
Qed.

Lemma position_ratio_bounds_witness :
  (0 <= PortfolioConfig.position_ratio widget_account)%Q
  ∧ (PortfolioConfig.position_ratio widget_account <= 100)%Q.
Proof.
  apply (position_ratio_bounds widget_account).
  - by vm_compute.
  - unfold widget_account. simpl. apply map_Forall_singleton. simpl.
    split; [lia | by vm_compute].
Defined.

(** ** Dashboard of a saved configuration *)



(** ** Trade history *)

(** X15.  For a positive limit [get_trade_history] returns the most recent
    trades first, at most [limit] of them. *)
Theorem get_trade_history_recent (limit : Z) (trades : list PortfolioAPI.trade_doc) :
  (0 < limit)%Z →
  PortfolioAPI.get_trade_history limit trades
  = take (Z.to_nat limit) (reverse trades).
Proof.
  intros Hl. unfold PortfolioAPI.get_trade_history, PortfolioAPI.slice_from.
  assert ((- limit <? 0)%Z = true) as -> by (apply Z.ltb_lt; lia).
  rewrite reverse_drop.
  destruct (decide (Z.to_nat limit ≤ length trades)%nat) as [Hle|Hgt].
  - f_equal. lia.
  - rewrite !take_ge; [done| |]; rewrite length_reverse; lia.
Qed.

Lemma get_trade_history_recent_witness :
  PortfolioAPI.get_trade_history 2 three_trades
  = take (Z.to_nat 2) (reverse three_trades).
Proof.
  apply (get_trade_history_recent 2 three_trades). lia.
Defined.

(** X16.  A limit of 0 or less does not give an empty history: a limit of
    -k drops the k oldest trades and returns the rest, most recent first, so
    a limit of 0 returns every trade. *)
Theorem get_trade_history_nonpositive (limit : Z)
    (trades : list PortfolioAPI.trade_doc) :
  (limit <= 0)%Z →
  PortfolioAPI.get_trade_history limit trades
  = reverse (drop (Z.to_nat (- limit)) trades)
  ∧ (limit = 0%Z → PortfolioAPI.get_trade_history limit trades = reverse trades).
Proof.
  intros Hl.
  assert (PortfolioAPI.get_trade_history limit trades
          = reverse (drop (Z.to_nat (- limit)) trades)) as Heq.
  { unfold PortfolioAPI.get_trade_history, PortfolioAPI.slice_from.
    assert ((- limit <? 0)%Z = false) as -> by (apply Z.ltb_ge; lia).
    f_equal.
    destruct (decide (Z.to_nat (- limit) ≤ length trades)%nat) as [Hle|Hgt].
    - f_equal. lia.
    - rewrite !drop_ge; [done| |]; lia. }
  split; [done|]. intros ->. by rewrite Heq.
Qed.

Lemma get_trade_history_nonpositive_witness :
  PortfolioAPI.get_trade_history 0 three_trades
  = reverse (drop (Z.to_nat (- 0)) three_trades)
  ∧ (0%Z = 0%Z → PortfolioAPI.get_trade_history 0 three_trades
                 = reverse three_trades).
Proof.
  apply (get_trade_history_nonpositive 0 three_trades). lia.
Defined.

(** ** Trade counters *)

Lemma action_in_disjoint (t : PortfolioAPI.trade_doc) :
  PortfolioAPI.action_in ["buy"; "add"] t = true →
  PortfolioAPI.action_in ["sell"; "reduce"] t = false.
Proof.
  unfold PortfolioAPI.action_in. destruct (PortfolioAPI.t_action t) as [a|];
    [|done].
  intros Hb%bool_decide_eq_true. apply bool_decide_eq_false. intros Hs.
  repeat (apply elem_of_cons in Hb as [-> | Hb]);
    repeat (apply elem_of_cons in Hs as [Hs | Hs]);
    try discriminate; by apply elem_of_nil in Hs || by apply elem_of_nil in Hb.
Qed.

Lemma known_action_counted (t : PortfolioAPI.trade_doc) :
  known_action t ↔
  PortfolioAPI.action_in ["buy"; "add"] t = true
  ∨ PortfolioAPI.action_in ["sell"; "reduce"] t = true.
Proof.
  unfold known_action, PortfolioAPI.action_in.
  destruct (PortfolioAPI.t_action t) as [a|]; split.
  - intros (a' & [= <-] & Hin). rewrite !bool_decide_eq_true.
    repeat (apply elem_of_cons in Hin as [-> | Hin]);
      [left; left | left; right; left | right; left | right; right; left
       | by apply elem_of_nil in Hin].
  - rewrite !bool_decide_eq_true. intros [Hin | Hin]; exists a; (split; [done|]);
      repeat (apply elem_of_cons in Hin as [-> | Hin]);
      try (by apply elem_of_nil in Hin);
      repeat first [ by left | right ].
  - by intros (a & ? & _).
  - by intros [? | ?].
Qed.

(** X17.  The buy and sell counters never add up to more than the total,
    and they add up to the total exactly when every journal entry carries
    one of the actions buy, add, sell, reduce. *)
Theorem trade_stats_counts (trades : list PortfolioAPI.trade_doc) :
  let c := PortfolioAPI.trade_stats trades in
  PortfolioAPI.trades_total c = length trades
  ∧ (PortfolioAPI.trades_buy c + PortfolioAPI.trades_sell c
     ≤ PortfolioAPI.trades_total c)%nat
  ∧ ((PortfolioAPI.trades_buy c + PortfolioAPI.trades_sell c
      = PortfolioAPI.trades_total c)%nat
     ↔ Forall known_action trades).
Proof.
  cbv zeta. unfold PortfolioAPI.trade_stats. simpl. split; [done|].
  induction trades as [|t trades [IHle IHeq]]; simpl.
  - split; [lia|]. split; [by constructor | done].
  - rewrite !filter_cons.
    pose proof (length_filter
                  (λ t, PortfolioAPI.action_in ["buy"; "add"] t = true) trades).
    pose proof (length_filter
                  (λ t, PortfolioAPI.action_in ["sell"; "reduce"] t = true)
                  trades).
    pose proof (action_in_disjoint t) as Hdis.
    pose proof (known_action_counted t) as Hknown.
    rewrite Forall_cons.
    destruct (decide (PortfolioAPI.action_in ["buy"; "add"] t = true)) as [Hb|Hb];
    destruct (decide (PortfolioAPI.action_in ["sell"; "reduce"] t = true))
      as [Hs|Hs]; simpl.
    + rewrite Hdis in Hs by done. done.
    + split; [lia|]. rewrite <- IHeq. split.
      * intros ?. split; [apply Hknown; by left | lia].
      * intros [_ ?]. lia.
    + split; [lia|]. rewrite <- IHeq. split.
      * intros ?. split; [apply Hknown; by right | lia].
      * intros [_ ?]. lia.
    + split; [lia|]. split; [lia|].
      intros [Hk _]. apply Hknown in Hk as [?|?]; done.
Qed.

(** ** The seven-day trend *)

#[global] Instance date_ge_total : Total PortfolioAPI.date_ge.
Proof. intros a b. apply (total date_le). Qed.

#[global] Instance date_ge_trans : Transitive PortfolioAPI.date_ge.
Proof. intros a b c Hab Hbc. by apply (transitivity (R := date_le) Hbc Hab). Qed.

#[global] Instance date_ge_antisym : AntiSymm (=) PortfolioAPI.date_ge.
Proof. intros a b Hab Hba. by apply (anti_symm date_le). Qed.

(** Sorting in descending order is sorting in ascending order and
    reversing. *)
Lemma sorted_reverse_reverse (l : list string) :
  PortfolioAPI.sorted_reverse l = reverse (sorted l).
Proof.
  apply (Sorted_unique PortfolioAPI.date_ge).
  - apply Sorted_merge_sort. apply _.
  - apply (Sorted_reverse date_le). apply Sorted_merge_sort. apply _.
  - unfold PortfolioAPI.sorted_reverse, sorted.
    by rewrite reverse_Permutation, !merge_sort_Permutation.
Qed.

Lemma last_n_elem_of {A} (n : nat) (l : list A) (x : A) :
  x ∈ last_n n l → x ∈ l.
Proof.
  unfold last_n. intros Hin. rewrite <- (take_drop (length l - n) l).
  apply elem_of_app. by right.
Qed.

Lemma trend_dates (snapshots : gmap string Snapshot.doc) (l : list string) :
  Forall (λ d, is_Some (snapshots !! d)) l →
  PortfolioAPI.trend_date
    <$> omap (λ date,
                (λ snap,
                   PortfolioAPI.mk_trend date
                     (default 0%Q (Snapshot.d_total_assets snap))
                     (default 0%Q (Snapshot.d_daily_profit_loss snap))
                     (default 0%Q (Snapshot.d_daily_return_pct snap)))
                <$> snapshots !! date) l
  = l.
Proof.
  induction 1 as [|d l [snap Hd] _ IH]; [done|].
  simpl. rewrite Hd. simpl. f_equal. exact IH.
Qed.

(** X18.  The trend of the dashboard lists the seven most recent snapshot
    dates (all of them when there are fewer), oldest first, each with the
    total assets recorded on that date. *)
Theorem daily_returns_recent (snapshots : gmap string Snapshot.doc) :
  PortfolioAPI.trend_date <$> PortfolioAPI.daily_returns snapshots
  = last_n 7 (sorted (keys snapshots))
  ∧ (length (PortfolioAPI.daily_returns snapshots)
     = Nat.min 7 (size snapshots))%nat
  ∧ ∀ row, row ∈ PortfolioAPI.daily_returns snapshots →
           PortfolioAPI.trend_total_assets row
           = assets_on snapshots (PortfolioAPI.trend_date row).
Proof.
  assert (reverse (take 7 (PortfolioAPI.sorted_reverse (keys snapshots)))
          = last_n 7 (sorted (keys snapshots))) as Hdates.
  { rewrite sorted_reverse_reverse, take_reverse, reverse_involutive. done. }
  assert (PortfolioAPI.trend_date <$> PortfolioAPI.daily_returns snapshots
          = last_n 7 (sorted (keys snapshots))) as Htrend.
  { unfold PortfolioAPI.daily_returns. rewrite Hdates. apply trend_dates.
    apply Forall_forall. intros d Hd%last_n_elem_of.
    by apply elem_of_sorted_keys. }
  split; [done|]. split.
  - rewrite <- (length_fmap PortfolioAPI.trend_date), Htrend.
    unfold last_n. rewrite length_drop.
    assert (length (sorted (keys snapshots)) = size snapshots) as ->.
    { unfold sorted, keys.
      by rewrite merge_sort_Permutation, length_fmap, length_map_to_list. }
    lia.
  - intros row Hrow. unfold PortfolioAPI.daily_returns in Hrow.
    apply list_elem_of_omap in Hrow as (d & _ & Hd).
    unfold assets_on. destruct (snapshots !! d) as [snap|] eqn:Hs; [|done].
    simpl in Hd. injection Hd as <-. simpl. by rewrite Hs.
Qed.

(** ** Bounds of the accuracy backtest *)

Lemma length_omap_le {A B} (f : A → option B) (l : list A) :
  (length (omap f l) ≤ length l)%nat.
Proof.
  induction l as [|x l IH]; [done|]. simpl.
  change (list_omap _ _ f l) with (omap f l).
  destruct (f x); simpl; lia.
Qed.

Lemma length_consecutive (l : list string) :
  length (consecutive l) = (length l - 1)%nat.
Proof.
  induction l as [|a l IH]; [done|].
  destruct l as [|b l]; [done|].
  change (consecutive (a :: b :: l)) with ((a, b) :: consecutive (b :: l)).
  simpl length in *. lia.
Qed.

Lemma ratio_pct_bounds (num den : nat) :
  (num ≤ den)%nat →
  (0 <= PortfolioAPI.ratio_pct num den)%Q
  ∧ (PortfolioAPI.ratio_pct num den <= 100)%Q.
Proof.
  intros Hle. unfold PortfolioAPI.ratio_pct.
  destruct (Nat.ltb_spec 0 den) as [Hpos|Hz]; [|lra].
  assert (0 < inject_Z (Z.of_nat den))%Q as Hd
    by (rewrite <- (Zlt_Qlt 0); lia).
  assert (0 <= inject_Z (Z.of_nat num))%Q as Hn
    by (rewrite <- (Zle_Qle 0); lia).
  assert (inject_Z (Z.of_nat num) <= inject_Z (Z.of_nat den))%Q as Hnd
    by (rewrite <- Zle_Qle; lia).
  assert (0 <= inject_Z (Z.of_nat num) / inject_Z (Z.of_nat den))%Q
    by (apply Qle_shift_div_l; [done|]; lra).
  assert (inject_Z (Z.of_nat num) / inject_Z (Z.of_nat den) <= 1)%Q
    by (apply Qle_shift_div_r; [done|]; lra).
  lra.
Qed.

(** X19.  The backtest never counts more correct predictions than
    predictions, nor more predictions than there are snapshots but one (none
    with fewer than two snapshots); the accuracy rate lies between 0 and 100
    and at most 30 records are returned. *)
Theorem get_ai_accuracy_bounds (snapshots : gmap string Snapshot.doc) :
  let a := PortfolioAPI.get_ai_accuracy snapshots in
  (PortfolioAPI.sum_correct_predictions a
   ≤ PortfolioAPI.sum_total_predictions a)%nat
  ∧ (PortfolioAPI.sum_total_predictions a ≤ size snapshots - 1)%nat
  ∧ (0 <= PortfolioAPI.accuracy_rate a)%Q
  ∧ (PortfolioAPI.accuracy_rate a <= 100)%Q
  ∧ (length (PortfolioAPI.records a) ≤ 30)%nat.
Proof.
  cbv zeta. destruct (grade_all_records snapshots) as (Hrecs & Htot & Hcor).
  unfold PortfolioAPI.get_ai_accuracy. simpl.
  assert (PortfolioAPI.correct_predictions (PortfolioAPI.grade_all snapshots)
          ≤ PortfolioAPI.total_predictions (PortfolioAPI.grade_all snapshots))%nat
    as Hle.
  { rewrite Htot, Hcor. unfold correct_in. apply length_filter. }
  split; [done|]. split.
  { rewrite Htot.
    etransitivity; [apply length_omap_le|].
    rewrite length_consecutive.
    assert (length (sorted (keys snapshots)) = size snapshots) as ->; [|done].
    unfold sorted, keys.
    by rewrite merge_sort_Permutation, length_fmap, length_map_to_list. }
  split; [by apply ratio_pct_bounds|]. split; [by apply ratio_pct_bounds|].
  unfold last_n. rewrite length_drop. lia.
Qed.

(** ** The monthly rows add up *)

Lemma in_month_cons m r rs :
  in_month m (r :: rs)
  = if decide (PortfolioAPI.month_of r = m) then r :: in_month m rs
    else in_month m rs.
Proof. unfold in_month. by rewrite filter_cons. Qed.

Lemma sum_list_one_more (f : string → nat) (x : string) (l : list string) :
  NoDup l → x ∈ l →
  sum_list ((λ m, if decide (x = m) then S (f m) else f m) <$> l)
  = S (sum_list (f <$> l)).
Proof.
  induction l as [|m l IH]; intros Hnd Hin; [by apply elem_of_nil in Hin|].
  apply NoDup_cons in Hnd as [Hm Hnd]. rewrite !fmap_cons.
  change (sum_list (?a :: ?k)) with (a + sum_list k)%nat.
  destruct (decide (x = m)) as [->|Hne].
  - assert (((λ m0, if decide (m = m0) then S (f m0) else f m0) <$> l)
            = (f <$> l)) as ->; [|lia].
    apply list_fmap_ext. intros i m' Hm'.
    destruct (decide (m = m')) as [->|]; [|done].
    exfalso. apply Hm. by apply list_elem_of_lookup_2 in Hm'.
  - apply elem_of_cons in Hin as [?|Hin]; [done|].
    rewrite IH by done. lia.
Qed.

(** Over a duplicate-free list of months that covers the records, the
    monthly counts add up to the number of records. *)
Lemma in_month_partition (rs : list PortfolioAPI.accuracy_record)
    (months : list string) :
  NoDup months →
  (∀ r, r ∈ rs → PortfolioAPI.month_of r ∈ months) →
  sum_list ((λ m, length (in_month m rs)) <$> months) = length rs.
Proof.
  intros Hnd. induction rs as [|r rs IH]; intros Hall.
  - clear. induction months as [|m months IHm]; [done|].
    rewrite fmap_cons. change (sum_list (?a :: ?k)) with (a + sum_list k)%nat.
    by rewrite IHm.
  - simpl. rewrite <- IH by (intros r' Hr'; apply Hall; by right).
    rewrite <- (sum_list_one_more _ (PortfolioAPI.month_of r)); [|done|].
    + f_equal. apply list_fmap_ext. intros i m _. rewrite in_month_cons.
      by destruct (decide _).
    + apply Hall. by left.
Qed.

Lemma correct_in_month m rs :
  correct_in (in_month m rs) = in_month m (correct_in rs).
Proof.
  unfold correct_in, in_month.
  induction rs as [|r rs IH]; [done|].
  rewrite !filter_cons.
  destruct (decide (PortfolioAPI.month_of r = m));
    destruct (decide (PortfolioAPI.is_correct r = true));
    rewrite ?filter_cons; repeat case_decide; try done; by rewrite IH.
Qed.

(** X20.  The monthly rows come in ascending order of the month, each month
    once, and they add up: the monthly totals sum to the number of
    predictions and the monthly correct counts to the number of correct
    predictions. *)
Theorem monthly_accuracy_adds_up (snapshots : gmap string Snapshot.doc) :
  let a := PortfolioAPI.get_ai_accuracy snapshots in
  StronglySorted date_le (PortfolioAPI.month <$> PortfolioAPI.monthly_accuracy a)
  ∧ NoDup (PortfolioAPI.month <$> PortfolioAPI.monthly_accuracy a)
  ∧ sum_list (PortfolioAPI.month_total <$> PortfolioAPI.monthly_accuracy a)
    = PortfolioAPI.sum_total_predictions a
  ∧ sum_list (PortfolioAPI.month_correct <$> PortfolioAPI.monthly_accuracy a)
    = PortfolioAPI.sum_correct_predictions a.
Proof.
  cbv zeta. destruct (grade_all_records snapshots) as (Hrecs & Htot & Hcor).
  rewrite <- Hrecs in Htot, Hcor.
  unfold PortfolioAPI.get_ai_accuracy. simpl. rewrite Htot, Hcor.
  set (recs := PortfolioAPI.accuracy_records (PortfolioAPI.grade_all snapshots))
    in *.
  set (months := sorted (keys (PortfolioAPI.monthly_stats recs))).
  assert (Forall (λ m, is_Some (PortfolioAPI.monthly_stats recs !! m)) months)
    as Hvalid.
  { apply Forall_forall. intros m Hm. by apply elem_of_sorted_keys. }
  rewrite (monthly_rows recs months Hvalid).
  assert (∀ r, r ∈ recs → PortfolioAPI.month_of r ∈ months) as Hcover.
  { intros r Hr. apply elem_of_sorted_keys. rewrite monthly_stats_lookup.
    assert (r ∈ in_month (PortfolioAPI.month_of r) recs) as Hin
      by (by apply list_elem_of_filter).
    destruct (in_month _ recs); [by apply elem_of_nil in Hin | by eexists]. }
  rewrite <- !list_fmap_compose.
  assert (∀ f : string → PortfolioAPI.month_row,
            (∀ m, PortfolioAPI.month (f m) = m) →
            PortfolioAPI.month ∘ f <$> months = months) as Hmonths.
  { intros f Hf. rewrite <- (list_fmap_id months) at 2.
    apply list_fmap_ext. intros i m _. apply Hf. }
  rewrite Hmonths by done.
  split; [apply sorted_keys_ascending|].
  split; [apply sorted_keys_NoDup|].
  split.
  - rewrite <- (in_month_partition recs months (sorted_keys_NoDup _) Hcover).
    f_equal.
  - rewrite <- (in_month_partition (correct_in recs) months
                  (sorted_keys_NoDup _)).
    + f_equal. apply list_fmap_ext. intros i m _. simpl.
      by rewrite correct_in_month.
    + intros r Hr. apply Hcover.
      unfold correct_in in Hr. by apply list_elem_of_filter in Hr as [_ ?].
Qed.

(** ** The price command *)

Lemma save_config_positions now disk pf :
  PortfolioConfig.positions
    (PortfolioManager.portfolio (PortfolioManager.save_config now disk pf))
  = PortfolioConfig.positions pf
  ∧ PortfolioConfig.available_cash
      (PortfolioManager.portfolio (PortfolioManager.save_config now disk pf))
    = PortfolioConfig.available_cash pf.
Proof. by destruct disk. Qed.

(** X21.  The [price] command on a symbol that is not held changes nothing
    and saves nothing; on a held symbol it replaces the current price and
    nothing else of the position (its last update stays what it was), and it
    leaves the other positions and the available cash alone. *)
Theorem price_command code current_price now disk pf :
  match PortfolioConfig.positions pf !! code with
  | None => TradeCLI.price code current_price now disk pf = (false, pf)
  | Some pos =>
      let r := TradeCLI.price code current_price now disk pf in
      r.1 = true
      ∧ PortfolioConfig.positions r.2 !! code
        = Some (quoted (Position.last_update pos) current_price pos)
      ∧ (∀ other, other ≠ code →
           PortfolioConfig.positions r.2 !! other
           = PortfolioConfig.positions pf !! other)
      ∧ PortfolioConfig.available_cash r.2 = PortfolioConfig.available_cash pf
  end.
Proof.
  unfold TradeCLI.price.
  destruct (PortfolioConfig.positions pf !! code) as [pos|] eqn:Hpos; [|done].
  cbv zeta. cbn [fst snd].
  destruct (save_config_positions now disk
              (PortfolioConfig.set_positions
                 (<[code := quoted (Position.last_update pos) current_price pos]>
                    (PortfolioConfig.positions pf)) pf)) as [Hp Hc].
  unfold quoted in *. rewrite Hp, Hc. simpl.
  split; [done|]. split; [by rewrite lookup_insert_eq|]. split; [|done].
  intros other Hne. by rewrite lookup_insert_ne.
Qed.

(** ** Closing a position and opening it again *)

(** X22.  After a position is sold out, buying the symbol again starts a new
    position: its cost price is the new purchase price, its purchase date is
    the new date and it has no quote; nothing of the old cost basis is
    carried over. *)
Theorem sell_out_then_buy_again code pos pf sell_price now disk
    name shares price notes now' disk' :
  PortfolioConfig.positions pf !! code = Some pos →
  let sold :=
    PortfolioManager.portfolio
      (PortfolioManager.reduce_position code (Position.shares pos) sell_price
         now disk pf) in
  PortfolioManager.has_position code sold = false
  ∧ PortfolioManager.get_position code
      (PortfolioManager.portfolio
         (PortfolioManager.add_position code name shares price notes now'
            disk' sold))
    = Some {| Position.code := code;
              Position.name := name;
              Position.shares := shares;
              Position.cost_price := price;
              Position.current_price := 0;
              Position.buy_date := split_first now';
              Position.last_update := now';
              Position.notes := notes |}.
Proof.
  intros Hpos. cbv zeta.
  pose proof (reduce_position_all_deletes code sell_price now disk pf pos Hpos)
    as Hgone.
  split.
  - unfold PortfolioManager.has_position. apply bool_decide_eq_false.
    rewrite Hgone. by intros [? ?].
  - unfold PortfolioManager.get_position, PortfolioManager.add_position.
    rewrite Hgone, then_save_positions. simpl. by rewrite lookup_insert_eq.
Qed.

Lemma sell_out_then_buy_again_witness :
  let sold :=
    PortfolioManager.portfolio
      (PortfolioManager.reduce_position "AAA" (Position.shares widget_position)
         (17 # 10) "2024-01-05 10:00:00" DiskOk widget_account) in
  PortfolioManager.has_position "AAA" sold = false
  ∧ PortfolioManager.get_position "AAA"
      (PortfolioManager.portfolio
         (PortfolioManager.add_position "AAA" "Widget" 300 (9 # 5) "again"
            "2024-02-01 09:30:00" DiskOk sold))
    = Some {| Position.code := "AAA";
              Position.name := "Widget";
              Position.shares := 300;
              Position.cost_price := 9 # 5;
              Position.current_price := 0;
              Position.buy_date := split_first "2024-02-01 09:30:00";
              Position.last_update := "2024-02-01 09:30:00";
              Position.notes := "again" |}.
Proof.
  apply (sell_out_then_buy_again "AAA" widget_position widget_account (17 # 10)
           "2024-01-05 10:00:00" DiskOk "Widget" 300 (9 # 5) "again"
           "2024-02-01 09:30:00" DiskOk).
  reflexivity.
Defined.

(** ** Order and boundary of the alerts *)

Lemma position_alerts_not_limit p pos a :
  a ∈ PortfolioManager.position_alerts p pos →
  PortfolioManager.a_type a ≠ PortfolioManager.PositionLimit.
Proof.
  intros (t & Ht & ->)%position_alerts_elem. by destruct t.
Qed.

(** X23.  The account-level alert, when the position ratio has reached the
    limit, is the last entry of the list and the only one of its type;
    below the limit no entry has that type. *)
Theorem check_risk_alerts_limit_last p :
  ((PortfolioConfig.position_ratio p
    < PortfolioConfig.max_total_position_pct p)%Q →
   ∀ a, a ∈ PortfolioManager.check_risk_alerts p →
        PortfolioManager.a_type a ≠ PortfolioManager.PositionLimit)
  ∧ ((PortfolioConfig.max_total_position_pct p
      <= PortfolioConfig.position_ratio p)%Q →
     ∃ front,
       PortfolioManager.check_risk_alerts p = (front ++ [limit_alert p])%list
       ∧ ∀ a, a ∈ front →
              PortfolioManager.a_type a ≠ PortfolioManager.PositionLimit).
Proof.
  assert (∀ a,
            a ∈ (map_to_list (PortfolioConfig.positions p)).*2
                  ≫= PortfolioManager.position_alerts p →
            PortfolioManager.a_type a ≠ PortfolioManager.PositionLimit) as Hfront.
  { intros a (pos & Hin & _)%list_elem_of_bind.
    by apply (position_alerts_not_limit p pos). }
  unfold PortfolioManager.check_risk_alerts. split.
  - intros Hlt%Qle_bool_false_iff. rewrite Hlt, app_nil_r. exact Hfront.
  - intros Hle%Qle_bool_iff. rewrite Hle. eexists. split; [reflexivity|].
    exact Hfront.
Qed.

(** X24.  A held position whose loss has reached the stop-loss line, the
    line itself included, is reported with a stop-loss alert and not with
    the stop-loss warning. *)
Theorem check_risk_alerts_stop_loss p code pos :
  PortfolioConfig.positions p !! code = Some pos →
  (Position.profit_loss_pct pos <= - PortfolioConfig.stop_loss_pct p)%Q →
  alert_about PortfolioManager.StopLoss pos
    ∈ PortfolioManager.check_risk_alerts p
  ∧ alert_about PortfolioManager.StopLossWarning pos
      ∉ PortfolioManager.check_risk_alerts p.
Proof.
  intros Hpos Hle. split.
  - apply risk_alert_elem. left. by exists code, pos, PortfolioManager.StopLoss.
  - intros [(code' & pos' & t & _ & Ht & Heq) | [_ Heq]]%risk_alert_elem.
    + destruct t; try discriminate Heq. simpl in Ht.
      injection Heq as _ _ Hpct. rewrite <- Hpct in Ht. lra.
    + discriminate Heq.
Qed.

Lemma check_risk_alerts_stop_loss_witness :
  alert_about PortfolioManager.StopLoss stopped_position
    ∈ PortfolioManager.check_risk_alerts stopped_account
  ∧ alert_about PortfolioManager.StopLossWarning stopped_position
      ∉ PortfolioManager.check_risk_alerts stopped_account.
Proof.
  apply (check_risk_alerts_stop_loss stopped_account "CCC" stopped_position).
  - reflexivity.
  - by vm_compute.
Defined.

(** ** Order of the accuracy records *)

(** X25.  The graded records come in ascending order of their date, no date
    twice, and every record's next date is a later snapshot date. *)
Theorem accuracy_records_ascending (snapshots : gmap string Snapshot.doc) :
  let recs := PortfolioAPI.accuracy_records (PortfolioAPI.grade_all snapshots) in
  StronglySorted date_le (PortfolioAPI.date <$> recs)
  ∧ NoDup (PortfolioAPI.date <$> recs)
  ∧ ∀ r, r ∈ recs →
         date_le (PortfolioAPI.date r) (PortfolioAPI.next_date r)
         ∧ PortfolioAPI.date r ≠ PortfolioAPI.next_date r
         ∧ is_Some (snapshots !! PortfolioAPI.next_date r).
Proof.
  cbv zeta. destruct (grade_all_records snapshots) as (Hrecs & _ & _).
  pose proof (graded_dates_sublist snapshots (sorted (keys snapshots))) as Hsub.
  rewrite <- Hrecs in Hsub.
  split; [by apply (ascending_sublist _ _ Hsub), sorted_keys_ascending|].
  split; [by apply (sublist_NoDup _ _ (sorted_keys_NoDup snapshots))|].
  intros r Hr. destruct (graded_record snapshots r Hr) as (Hpair & _ & _).
  pose proof (sorted_keys_ascending snapshots) as Hs.
  pose proof (sorted_keys_NoDup snapshots) as Hnd.
  destruct (consecutive_elems _ _ _ Hpair) as [_ Hnext].
  split; [|split; [|by apply elem_of_sorted_keys]].
  - revert Hs Hpair. generalize (sorted (keys snapshots)) as l.
    induction l as [|a l IH]; [by intros _ ?%elem_of_nil|].
    destruct l as [|b l]; [by intros _ ?%elem_of_nil|].
    change (consecutive (a :: b :: l)) with ((a, b) :: consecutive (b :: l)).
    intros [Hs Hall]%StronglySorted_inv [Heq|Hin]%elem_of_cons.
    + injection Heq as -> ->. rewrite Forall_forall in Hall. apply Hall. left.
    + by apply IH.
  - revert Hnd Hpair. generalize (sorted (keys snapshots)) as l.
    induction l as [|a l IH]; [by intros _ ?%elem_of_nil|].
    destruct l as [|b l]; [by intros _ ?%elem_of_nil|].
    change (consecutive (a :: b :: l)) with ((a, b) :: consecutive (b :: l)).
    intros [Ha Hnd]%NoDup_cons [Heq|Hin]%elem_of_cons.
    + injection Heq as -> ->. intros ->. apply Ha. left.
    + by apply IH.
Qed.

(** ** Profit/loss % on the dashboard *)

(** X26.  For a position that carries its current price, the profit/loss %
    of the dashboard row is that of the loaded position as long as the cost
    amount is not negative; for a negative cost amount the dashboard shows 0
    whatever the position reports. *)
Theorem dashboard_row_pct code (pos : Position.doc) :
  is_Some (Position.d_current_price pos) →
  ((0 <= Position.cost_amount (Position.from_dict pos))%Q →
   (PortfolioAPI.row_profit_loss_pct (PortfolioAPI.dashboard_row code pos)
    == Position.profit_loss_pct (Position.from_dict pos))%Q)
  ∧ ((Position.cost_amount (Position.from_dict pos) < 0)%Q →
     PortfolioAPI.row_profit_loss_pct (PortfolioAPI.dashboard_row code pos)
     = 0%Q).
Proof.
  intros [price Hprice].
  unfold PortfolioAPI.dashboard_row, Position.profit_loss_pct,
    Position.profit_loss, Position.market_value, Position.cost_amount,
    Position.from_dict. simpl. rewrite Hprice. simpl.
  set (ca := Zmulf (default 0%Z (Position.d_shares pos))
                   (default 0%Q (Position.d_cost_price pos))).
  split.
  - intros Hge. destruct (Qlt_bool 0 ca) eqn:E1; destruct (Qeq_bool ca 0) eqn:E2;
      try reflexivity.
    + apply Qlt_bool_iff in E1. apply Qeq_bool_iff in E2. lra.
    + apply Qlt_bool_false_iff in E1. apply Qeq_bool_neq in E2. lra.
  - intros Hlt. destruct (Qlt_bool 0 ca) eqn:E1; [|done].
    apply Qlt_bool_iff in E1. lra.
Qed.

Lemma dashboard_row_pct_witness :
  ((0 <= Position.cost_amount
           (Position.from_dict (Position.to_dict stopped_position)))%Q →
   (PortfolioAPI.row_profit_loss_pct
      (PortfolioAPI.dashboard_row "CCC" (Position.to_dict stopped_position))
    == Position.profit_loss_pct
         (Position.from_dict (Position.to_dict stopped_position)))%Q)
  ∧ ((Position.cost_amount
        (Position.from_dict (Position.to_dict stopped_position)) < 0)%Q →
     PortfolioAPI.row_profit_loss_pct
       (PortfolioAPI.dashboard_row "CCC" (Position.to_dict stopped_position))
     = 0%Q).
Proof.
  apply (dashboard_row_pct "CCC" (Position.to_dict stopped_position)).
  by eexists.
Defined.
